(** * Token packing and environment bootstrap of the pretraining notebooks

  A shallow embedding of the notebook cells of [Lesson_3.ipynb] (and of the
  two sibling lesson notebooks that share its bootstrap cells):

  - cells 4.1 and 4.2 and the first statement of cell 4.3, which
    concatenate the token ids of the data set, truncate them to a multiple
    of [max_seq_length], reshape them into rows, cast them to [np.int32]
    and turn the array into a list of rows;
  - [setup_environment] and the run-mode selection cell.

  Notebook cells are statements run against the notebook's global name
  space, so they are embedded as computations in a state-and-exception
  monad over a record of the global names they touch. *)

From Stdlib Require Import ZArith Bool String Ascii List Lia.
From Stdlib Require Import DecimalString.
Import ListNotations.
Local Open Scope Z_scope.

(** ** Python results and exceptions *)

Module Py.

(** The exceptions that the modelled cells can raise. *)
Inductive exn : Type :=
| ZeroDivisionError
| ValueError
| NameError
| AssertionError
| ImportError
| OSError
| SubprocessError
| UnicodeDecodeError.

Definition exn_eq_dec (a b : exn) : {a = b} + {a <> b}.
Proof. decide equality. Defined.

Inductive result (A : Type) : Type :=
| Ok (a : A)
| Raise (e : exn).
Arguments Ok {A} a.
Arguments Raise {A} e.

(** Statements over a state [S]: a state goes in, a value or an exception
    comes out together with the state as the statement left it.  What was
    assigned or printed before an exception stays. *)
Definition stmt (S A : Type) : Type := S -> result A * S.

Definition ret {S A} (a : A) : stmt S A := fun st => (Ok a, st).

Definition raise {S A} (e : exn) : stmt S A := fun st => (Raise e, st).

Definition bind {S A B} (m : stmt S A) (k : A -> stmt S B) : stmt S B :=
  fun st => match m st with
            | (Ok a, st') => k a st'
            | (Raise e, st') => (Raise e, st')
            end.

(** [try: m except e: handler]. *)
Definition try_except {S A} (m : stmt S A) (e : exn) (handler : stmt S A)
  : stmt S A :=
  fun st => match m st with
            | (Raise e', st') =>
                if exn_eq_dec e' e then handler st' else (Raise e', st')
            | out => out
            end.

(** A library call that can raise and leaves the state alone. *)
Definition call {S A} (r : result A) : stmt S A := fun st => (r, st).

(** [str(n)] for a Python [int]. *)
Definition str_int (n : Z) : string := NilZero.string_of_int (Z.to_int n).

(** [a % b] on Python [int]s: the result has the sign of the divisor, and a
    zero divisor raises. *)
Definition mod_ (a b : Z) : result Z :=
  if b =? 0 then Raise ZeroDivisionError else Ok (a mod b).

(** [l[:stop]] on a sequence of length [length l]: a negative [stop] counts
    from the end, and the bound is clipped to the sequence. *)
Definition slice_to {A : Type} (l : list A) (stop : Z) : list A :=
  let n := Z.of_nat (length l) in
  if stop <? 0 then firstn (Z.to_nat (Z.max (stop + n) 0)) l
  else firstn (Z.to_nat (Z.min stop n)) l.

End Py.

Declare Scope stmt_scope.
Delimit Scope stmt_scope with stmt.
Notation "x <- m ;; k" := (Py.bind m (fun x => k))
  (at level 61, m at next level, right associativity) : stmt_scope.
Notation "m ;; k" := (Py.bind m (fun _ => k))
  (at level 61, right associativity) : stmt_scope.

(** ** The fragment of NumPy used by the packing cells *)

Module Numpy.
Import Py.

(** Element types of the arrays that occur: a list of Python [int]s becomes
    an [int64] array, an empty list a [float64] array, and concatenation
    promotes to [float64] as soon as one operand is [float64]. *)
Inductive dtype : Type := Int64 | Float64 | Int32.

Definition promote (a b : dtype) : dtype :=
  match a, b with
  | Float64, _ | _, Float64 => Float64
  | Int64, _ | _, Int64 => Int64
  | Int32, Int32 => Int32
  end.

(** An array of one or two dimensions: the element type, the shape and the
    elements in row-major order.  The elements of the data set are 64-bit
    integers (the Arrow column they come from stores them so); in a
    [float64] array an entry [z] stands for the double nearest to [z]. *)
Record ndarray : Type := mk_ndarray {
  nd_dtype : dtype;
  nd_shape : list Z;
  nd_data  : list Z
}.

Definition size (a : ndarray) : Z := Z.of_nat (length (nd_data a)).

(** [len(a)]: the extent of the first axis. *)
Definition len (a : ndarray) : Z := hd 0 (nd_shape a).

(** The element type [np.asarray] infers for one record of the column, a
    list of Python [int]s. *)
Definition seq_dtype (l : list Z) : dtype :=
  match l with [] => Float64 | _ => Int64 end.

(** The element type of the concatenation of [s] and the arrays after it. *)
Definition concat_dtype (s : list Z) (rest : list (list Z)) : dtype :=
  fold_left promote (map seq_dtype rest) (seq_dtype s).

(** [np.concatenate(seqs)] on a sequence of one-dimensional sequences. *)
Definition concatenate (seqs : list (list Z)) : result ndarray :=
  match seqs with
  | [] => Raise ValueError (* need at least one array to concatenate *)
  | s :: rest =>
      let data := concat (s :: rest) in
      Ok (mk_ndarray (concat_dtype s rest) [Z.of_nat (length data)] data)
  end.

(** [a[:stop]] on a one-dimensional array. *)
Definition slice_to (a : ndarray) (stop : Z) : ndarray :=
  let data := Py.slice_to (nd_data a) stop in
  mk_ndarray (nd_dtype a) [Z.of_nat (length data)] data.

(** [a.reshape(-1, c)]: every negative extent is read as the unknown one,
    and two of them are refused; the unknown extent must divide evenly. *)
Definition reshape_m1 (a : ndarray) (c : Z) : result ndarray :=
  if c <? 0 then Raise ValueError (* can only specify one unknown dimension *)
  else if (c =? 0) || negb (size a mod c =? 0)
       then Raise ValueError (* cannot reshape array of size .. *)
       else Ok (mk_ndarray (nd_dtype a) [size a / c; c] (nd_data a)).

Definition int32_min : Z := - 2 ^ 31.
Definition int32_max : Z := 2 ^ 31 - 1.

Definition in_int32 (z : Z) : bool := (int32_min <=? z) && (z <=? int32_max).

(** The C conversion of an [int64] to [int32] keeps the low 32 bits. *)
Definition wrap_int32 (z : Z) : Z := (z + 2 ^ 31) mod 2 ^ 32 - 2 ^ 31.

(** The conversion of one element to [int32].  From [float64] it is exact in
    range; out of range C leaves it undefined, and the x86-64 conversion
    instruction yields the smallest [int32]. *)
Definition cast_int32 (dt : dtype) (z : Z) : Z :=
  match dt with
  | Int32 => z
  | Int64 => wrap_int32 z
  | Float64 => if in_int32 z then z else int32_min
  end.

(** [a.astype(np.int32)]. *)
Definition astype_int32 (a : ndarray) : ndarray :=
  mk_ndarray Int32 (nd_shape a) (map (cast_int32 (nd_dtype a)) (nd_data a)).

(** The rows of a row-major buffer: [r] rows of [c] elements each. *)
Fixpoint rows_of (r c : nat) (l : list Z) : list (list Z) :=
  match r with
  | O => []
  | S r' => firstn c l :: rows_of r' c (skipn c l)
  end.

(** [a.tolist()] on a two-dimensional array, the only kind the cells call it
    on. *)
Definition tolist2 (a : ndarray) : list (list Z) :=
  match nd_shape a with
  | [r; c] => rows_of (Z.to_nat r) (Z.to_nat c) (nd_data a)
  | _ => []
  end.

(** [str(a.shape)]. *)
Definition str_shape (a : ndarray) : string :=
  match nd_shape a with
  | [] => "()"
  | [n] => "(" ++ str_int n ++ ",)"
  | n :: ns =>
      "(" ++ str_int n
          ++ fold_right (fun m acc => ", " ++ str_int m ++ acc) ")" ns
  end%string.

End Numpy.

(** ** The packing cells of the lesson notebook *)

Module Lesson3.
Import Py Numpy.

(** The global names the packing cells read and write.  A name that no cell
    has assigned yet is [None]; [stdout] collects the printed lines, oldest
    first. *)
Record notebook : Type := mk_notebook {
  dataset_input_ids  : list (list Z);        (* dataset["input_ids"] *)
  input_ids          : option ndarray;
  max_seq_length     : option Z;
  total_length       : option Z;
  input_ids_reshaped : option ndarray;
  input_ids_list     : option (list (list Z));
  stdout             : list string
}.

(** A kernel that has loaded and tokenized the data set and has run none of
    the packing cells. *)
Definition fresh (seqs : list (list Z)) : notebook :=
  mk_notebook seqs None None None None None [].

Definition stmt (A : Type) : Type := Py.stmt notebook A.

Local Open Scope stmt_scope.

(** Reading a global name; an unassigned one raises [NameError]. *)
Definition read {A} (var : notebook -> option A) : stmt A :=
  fun nb => match var nb with
            | Some a => (Ok a, nb)
            | None => (Raise NameError, nb)
            end.

Definition get_dataset : stmt (list (list Z)) :=
  fun nb => (Ok (dataset_input_ids nb), nb).

Definition set_input_ids (a : ndarray) : stmt unit :=
  fun nb => (Ok tt, mk_notebook (dataset_input_ids nb) (Some a)
                      (max_seq_length nb) (total_length nb)
                      (input_ids_reshaped nb) (input_ids_list nb) (stdout nb)).

Definition set_max_seq_length (L : Z) : stmt unit :=
  fun nb => (Ok tt, mk_notebook (dataset_input_ids nb) (input_ids nb)
                      (Some L) (total_length nb)
                      (input_ids_reshaped nb) (input_ids_list nb) (stdout nb)).

Definition set_total_length (t : Z) : stmt unit :=
  fun nb => (Ok tt, mk_notebook (dataset_input_ids nb) (input_ids nb)
                      (max_seq_length nb) (Some t)
                      (input_ids_reshaped nb) (input_ids_list nb) (stdout nb)).

Definition set_input_ids_reshaped (a : ndarray) : stmt unit :=
  fun nb => (Ok tt, mk_notebook (dataset_input_ids nb) (input_ids nb)
                      (max_seq_length nb) (total_length nb)
                      (Some a) (input_ids_list nb) (stdout nb)).

Definition set_input_ids_list (l : list (list Z)) : stmt unit :=
  fun nb => (Ok tt, mk_notebook (dataset_input_ids nb) (input_ids nb)
                      (max_seq_length nb) (total_length nb)
                      (input_ids_reshaped nb) (Some l) (stdout nb)).

Definition print (line : string) : stmt unit :=
  fun nb => (Ok tt, mk_notebook (dataset_input_ids nb) (input_ids nb)
                      (max_seq_length nb) (total_length nb)
                      (input_ids_reshaped nb) (input_ids_list nb)
                      (stdout nb ++ [line])).

(** Cell 4.1.  The notebook's literal [32] is the parameter [L]. *)
Definition cell_4_1 (L : Z) : stmt unit :=
  seqs <- get_dataset ;;
  a <- call (concatenate seqs) ;;
  set_input_ids a ;;
  a <- read input_ids ;;
  print ("Total number of concatenated tokens: " ++ str_int (len a)) ;;
  set_max_seq_length L.

(** Cell 4.2. *)
Definition cell_4_2 : stmt unit :=
  a <- read input_ids ;;
  a' <- read input_ids ;;
  L <- read max_seq_length ;;
  m <- call (mod_ (len a') L) ;;
  set_total_length (len a - m) ;;
  t <- read total_length ;;
  print ("Adjusted total length: " ++ str_int t) ;;
  a <- read input_ids ;;
  t <- read total_length ;;
  set_input_ids (slice_to a t) ;;
  a <- read input_ids ;;
  print ("Shape after truncation: " ++ str_shape a) ;;
  a <- read input_ids ;;
  L <- read max_seq_length ;;
  r <- call (reshape_m1 a L) ;;
  set_input_ids_reshaped (astype_int32 r) ;;
  r <- read input_ids_reshaped ;;
  print ("Shape after reshaping: " ++ str_shape r).

(** The first statement of cell 4.3,
    [input_ids_list = input_ids_reshaped.tolist()], which turns the array
    into the rows that are stored.  The statements that follow it in the
    cell hand the rows to [datasets.Dataset.from_dict], print the data set,
    write it with [to_json] and print whether the file exists; they read
    [input_ids_list] and assign none of the names above, and they are not
    part of this definition. *)
Definition cell_4_3_tolist : stmt unit :=
  r <- read input_ids_reshaped ;;
  set_input_ids_list (tolist2 r).

(** The packer: cell 4.1, cell 4.2 and the statement of cell 4.3 that makes
    the rows, in notebook order. *)
Definition pack_cells (L : Z) : stmt unit :=
  cell_4_1 L ;; cell_4_2 ;; cell_4_3_tolist.

(** The rows a run has left in [input_ids_list], or the exception it ended
    in. *)
Definition rows_after {A} (out : result A * notebook)
  : result (list (list Z)) :=
  match out with
  | (Ok _, nb) =>
      match input_ids_list nb with
      | Some rows => Ok rows
      | None => Raise NameError
      end
  | (Raise e, _) => Raise e
  end.

(** The rows the packer produces for a data set, from a fresh kernel. *)
Definition pack (L : Z) (seqs : list (list Z)) : result (list (list Z)) :=
  rows_after (pack_cells L (fresh seqs)).

(** *** Vocabulary of the packing contract *)

(** The flattened concatenation of the input sequences, in collection
    order, and its length. *)
Definition flat (seqs : list (list Z)) : list Z := concat seqs.
Definition ntokens (seqs : list (list Z)) : Z := Z.of_nat (length (flat seqs)).

(** [sum(len(row) for row in rows)]. *)
Definition count_elements (rows : list (list Z)) : Z :=
  fold_right (fun row acc => Z.of_nat (length row) + acc) 0 rows.

(** The number of leading tokens that fill complete rows. *)
Definition kept (L : Z) (seqs : list (list Z)) : Z :=
  ntokens seqs - ntokens seqs mod L.

(** Chunk [i] of width [L]: the elements at positions [i*L, (i+1)*L). *)
Definition chunk (L : Z) (i : nat) (T : list Z) : list Z :=
  firstn (Z.to_nat L) (skipn (i * Z.to_nat L) T).

(** The arrays and the printed lines the cells leave behind on the data set
    [s :: rest]. *)
Definition concatenated (s : list Z) (rest : list (list Z)) : ndarray :=
  mk_ndarray (concat_dtype s rest) [ntokens (s :: rest)] (flat (s :: rest)).

Definition truncated (L : Z) (s : list Z) (rest : list (list Z)) : ndarray :=
  mk_ndarray (concat_dtype s rest) [kept L (s :: rest)]
    (firstn (Z.to_nat (kept L (s :: rest))) (flat (s :: rest))).

Definition reshaped (L : Z) (s : list Z) (rest : list (list Z)) : ndarray :=
  mk_ndarray Int32 [ntokens (s :: rest) / L; L]
    (map (cast_int32 (concat_dtype s rest)) (nd_data (truncated L s rest))).

Definition line_concatenated (s : list Z) (rest : list (list Z)) : string :=
  "Total number of concatenated tokens: " ++ str_int (ntokens (s :: rest)).

Definition line_adjusted (L : Z) (s : list Z) (rest : list (list Z)) : string :=
  "Adjusted total length: " ++ str_int (kept L (s :: rest)).

Definition packed_stdout (L : Z) (s : list Z) (rest : list (list Z))
  : list string :=
  [ line_concatenated s rest;
    line_adjusted L s rest;
    ("Shape after truncation: " ++ str_shape (truncated L s rest))%string;
    ("Shape after reshaping: " ++ str_shape (reshaped L s rest))%string ].

(** The element type of the concatenated array, [float64] on no input. *)
Definition input_dtype (seqs : list (list Z)) : dtype :=
  match seqs with
  | [] => Float64
  | s :: rest => concat_dtype s rest
  end.

(** The row-major buffer behind the rows: the casts of the tokens kept. *)
Definition packed_data (L : Z) (seqs : list (list Z)) : list Z :=
  map (cast_int32 (input_dtype seqs))
      (firstn (Z.to_nat (kept L seqs)) (flat seqs)).

(** Rebinding [dataset] to another tokenized data set, as the cells before
    4.1 do when they are run again. *)
Definition load (seqs : list (list Z)) (nb : notebook) : notebook :=
  mk_notebook seqs (input_ids nb) (max_seq_length nb) (total_length nb)
    (input_ids_reshaped nb) (input_ids_list nb) (stdout nb).

(** *** The contract sentences that the cells are checked against *)

(** Row [i] of the output holds exactly the elements of chunk [i] of the
    flattened concatenation. *)
Definition rows_are_chunks (L : Z) (seqs : list (list Z)) : Prop :=
  forall rows, pack L seqs = Ok rows ->
  forall i row, nth_error rows i = Some row -> row = chunk L i (flat seqs).

(** The run fails before any processing begins: an exception, and a
    notebook in which nothing was assigned and nothing printed. *)
Definition fails_before_processing (L : Z) (seqs : list (list Z)) : Prop :=
  exists e, pack_cells L (fresh seqs) = (Raise e, fresh seqs).

(** An empty collection, a collection of empty sequences or one with fewer
    than [L] tokens packs, without an error, to no rows. *)
Definition short_input_packs_to_no_rows (L : Z) (seqs : list (list Z))
  : Prop :=
  seqs = [] \/ Forall (fun s => s = []) seqs \/ count_elements seqs < L ->
  pack L seqs = Ok [].

(** The rows hold, in order, exactly the elements before the final
    [total_input_tokens mod L] ones: none of those trailing elements is in a
    row and no other element is dropped. *)
Definition drops_only_the_tail (L : Z) (seqs : list (list Z)) : Prop :=
  forall rows, pack L seqs = Ok rows ->
  exists head tail,
    flat seqs = head ++ tail /\
    Z.of_nat (length tail) = ntokens seqs mod L /\
    concat rows = head.

(** A run has no effect besides its output: it prints nothing and, the two
    names that hold the output apart ([input_ids_reshaped] and
    [input_ids_list]), every name is bound after the run to what it was
    bound to before. *)
Definition no_effect_besides_output (L : Z) (nb : notebook) : Prop :=
  dataset_input_ids (snd (pack_cells L nb)) = dataset_input_ids nb /\
  input_ids (snd (pack_cells L nb)) = input_ids nb /\
  max_seq_length (snd (pack_cells L nb)) = max_seq_length nb /\
  total_length (snd (pack_cells L nb)) = total_length nb /\
  stdout (snd (pack_cells L nb)) = stdout nb.

(** Running the statements of the cells, one library call at a time. *)
Ltac run_stmt :=
  unfold pack_cells, cell_4_1, cell_4_2, cell_4_3_tolist, bind, ret,
    get_dataset, call, read, set_input_ids, set_max_seq_length, set_total_length,
    set_input_ids_reshaped, set_input_ids_list, print;
  cbn -[String.append str_int str_shape Z.modulo Z.div firstn rows_of concat
        Z.of_nat Z.to_nat mod_ reshape_m1 slice_to astype_int32 tolist2
        concatenate app].

End Lesson3.

(** ** The bootstrap cells shared by the lesson notebooks *)

Module Setup.
Import Py.
Local Open Scope stmt_scope.
Local Open Scope string_scope.

(** The calls [setup_environment] makes into the machine it runs on, over a
    type [W] of machine states (file system, mounts, working directory,
    installed modules and tools). *)
Class Platform (W : Type) : Type := {
  (* from google.colab import drive *)
  import_google_colab : W -> result unit * W;
  (* drive.mount(p) *)
  drive_mount : string -> W -> result unit * W;
  os_path_ismount : string -> W -> bool;
  (* os.path.join(a, *ps) *)
  os_path_join : string -> list string -> string;
  os_path_exists : string -> W -> bool;
  os_makedirs : string -> W -> result unit * W;
  os_chdir : string -> W -> result unit * W;
  os_getcwd : W -> result string * W;
  os_path_basename : string -> string;
  (* subprocess.check_output(cmd, shell=True).decode('utf-8') *)
  check_output_decode : string -> W -> result string * W
}.

Section SetupEnvironment.
Context {W : Type} `{Platform W}.

(** The machine and what has been printed so far, oldest first. *)
Record machine : Type := mk_machine {
  world : W;
  stdout : list string
}.

(** A call that acts on the machine state. *)
Definition sys {A} (f : W -> result A * W) : stmt machine A :=
  fun st => let (r, w) := f (world st) in (r, mk_machine w (stdout st)).

(** A call that only inspects the machine state. *)
Definition ask {A} (f : W -> A) : stmt machine A :=
  fun st => (Ok (f (world st)), st).

Definition print (line : string) : stmt machine unit :=
  fun st => (Ok tt, mk_machine (world st) (stdout st ++ [line])).

Definition assert_ (b : bool) : stmt machine unit :=
  if b then ret tt else raise AssertionError.

Definition setup_environment
    (curr_proj_folder google_drive_base_folder : string)
    (run_remote use_gpu : bool) : stmt machine (string * bool) :=
  (* Initialize mount status for Colab *)
  let mount_success := false in
  located <-
    (if run_remote then
       (* Remote run code *)
       sys import_google_colab ;;
       sys (drive_mount "/content/drive") ;;
       mounted <- ask (os_path_ismount "/content/drive") ;;
       mount_success <-
         (if mounted
          then print "Google Drive mounted successfully!" ;; ret true
          else print "Drive mount failed." ;; ret mount_success) ;;
       let mount_path := "/content/drive/MyDrive" in
       let path_to_scripts :=
         os_path_join mount_path
           [google_drive_base_folder; curr_proj_folder] in
       present <- ask (os_path_exists path_to_scripts) ;;
       (if negb present then sys (os_makedirs path_to_scripts)
        else ret tt) ;;
       sys (os_chdir path_to_scripts) ;;
       cwd <- sys os_getcwd ;;
       print ("Running code in path " ++ cwd) ;;
       ret (path_to_scripts, mount_success)
     else
       (* Local Run *)
       path_to_scripts <- sys os_getcwd ;;
       assert_ (os_path_basename path_to_scripts =? curr_proj_folder) ;;
       print ("Running code in path " ++ path_to_scripts) ;;
       ret (path_to_scripts, mount_success)) ;;
  (* check GPU usage *)
  (if use_gpu then
     try_except
       (gpu_info <- sys (check_output_decode "nvidia-smi") ;;
        print "******GPU is available and will be used:**********" ;;
        print gpu_info)
       SubprocessError
       (print "GPU check failed (nvidia-smi not found or no GPU available). Falling back to CPU.")
   else
     print "******use_gpu is set to False. Using CPU******") ;;
  ret located.

End SetupEnvironment.

Arguments machine W : clear implicits.

(** The run-mode selection cell: the two flags it assigns from
    [run_remote]. *)
Record run_mode : Type := mk_run_mode {
  run_local : bool;
  run_local_usingColab : bool
}.

Definition run_mode_cell (run_remote : bool) : run_mode :=
  if run_remote then
    let run_local := false in
    let run_local_usingColab := false in
    mk_run_mode run_local run_local_usingColab
  else
    let run_local := false in
    let run_local_usingColab := negb run_local in
    mk_run_mode run_local run_local_usingColab.

(** A setting of [run_remote], [run_local] and [run_local_usingColab]. *)
Definition scenario : Type := (bool * bool * bool)%type.

(** The scenarios the notebook lists under "Possible Scenarios". *)
Definition documented_scenarios : list scenario :=
  [ (true, false, false);     (* Running on Google Colab *)
    (false, true, false);     (* Running on Local Computer with Jupyter Lab *)
    (false, false, true) ].   (* Colab using Local PC compute resources *)

(** The setting the cell leaves behind for a value of [run_remote]. *)
Definition scenario_after (run_remote : bool) : scenario :=
  let m := run_mode_cell run_remote in
  (run_remote, run_local m, run_local_usingColab m).

(** *** A POSIX machine to run the bootstrap on *)

Record posix : Type := mk_posix {
  cwd : string;
  dirs : list string;            (* the directories that exist *)
  mounts : list string;          (* the mount points *)
  has_colab : bool;              (* the google.colab module is installed *)
  drive_mounts : bool;           (* mounting the drive succeeds *)
  nvidia_smi : option string     (* what nvidia-smi prints, if it runs *)
}.

Definition mem_string (s : string) (l : list string) : bool :=
  existsb (String.eqb s) l.

Definition starts_with_slash (s : string) : bool :=
  match s with
  | String c _ => Ascii.eqb c "/"
  | EmptyString => false
  end.

Fixpoint ends_with_slash (s : string) : bool :=
  match s with
  | EmptyString => false
  | String c EmptyString => Ascii.eqb c "/"
  | String _ s' => ends_with_slash s'
  end.

(** [posixpath.join]: a component that starts with a slash starts over. *)
Definition posix_join (a : string) (ps : list string) : string :=
  fold_left (fun path b =>
               if starts_with_slash b then b
               else if (path =? "") || ends_with_slash path then path ++ b
               else path ++ "/" ++ b) ps a.

(** [posixpath.basename]: what follows the last slash. *)
Fixpoint posix_basename_from (acc s : string) : string :=
  match s with
  | EmptyString => acc
  | String c s' =>
      if Ascii.eqb c "/" then posix_basename_from "" s'
      else posix_basename_from (acc ++ String c "") s'
  end.

Definition posix_basename (p : string) : string := posix_basename_from "" p.

#[export] Instance posix_platform : Platform posix := {
  import_google_colab w :=
    (if has_colab w then Ok tt else Raise ImportError, w);
  drive_mount p w :=
    (Ok tt,
     if drive_mounts w
     then mk_posix (cwd w) (p :: (p ++ "/MyDrive") :: dirs w) (p :: mounts w)
            (has_colab w) (drive_mounts w) (nvidia_smi w)
     else w);
  os_path_ismount p w := mem_string p (mounts w);
  os_path_join := posix_join;
  os_path_exists p w := mem_string p (dirs w);
  os_makedirs p w :=
    (Ok tt, mk_posix (cwd w) (p :: dirs w) (mounts w)
              (has_colab w) (drive_mounts w) (nvidia_smi w));
  os_chdir p w :=
    if mem_string p (dirs w)
    then (Ok tt, mk_posix p (dirs w) (mounts w)
                   (has_colab w) (drive_mounts w) (nvidia_smi w))
    else (Raise OSError, w);
  os_getcwd w := (Ok (cwd w), w);
  os_path_basename := posix_basename;
  check_output_decode _ w :=
    (match nvidia_smi w with
     | Some text => Ok text
     | None => Raise SubprocessError
     end, w)
}.

(** A laptop without the Colab module and without a GPU, started in the
    project folder. *)
Definition laptop : machine posix :=
  mk_machine
    (mk_posix "/home/user/pretraining-llms" ["/home/user/pretraining-llms"]
       [] false false None)
    [].

(** A Colab runtime with a GPU whose drive mounts. *)
Definition colab : machine posix :=
  mk_machine
    (mk_posix "/content" ["/content"] [] true true (Some "Tesla T4"))
    [].

End Setup.

(** ** The two halves of [setup_environment] *)

Module SetupParts.
Import Py Setup.
Local Open Scope stmt_scope.
Local Open Scope string_scope.

Section Halves.
Context {W : Type} `{Platform W}.

(** From the first statement to the end of the [if run_remote] statement:
    finding the folder to work in. *)
Definition locate (curr_proj_folder google_drive_base_folder : string)
    (run_remote : bool) : stmt (machine W) (string * bool) :=
  let mount_success := false in
  if run_remote then
    sys import_google_colab ;;
    sys (drive_mount "/content/drive") ;;
    mounted <- ask (os_path_ismount "/content/drive") ;;
    mount_success <-
      (if mounted
       then print "Google Drive mounted successfully!" ;; ret true
       else print "Drive mount failed." ;; ret mount_success) ;;
    let mount_path := "/content/drive/MyDrive" in
    let path_to_scripts :=
      os_path_join mount_path
        [google_drive_base_folder; curr_proj_folder] in
    present <- ask (os_path_exists path_to_scripts) ;;
    (if negb present then sys (os_makedirs path_to_scripts)
     else ret tt) ;;
    sys (os_chdir path_to_scripts) ;;
    cwd <- sys os_getcwd ;;
    print ("Running code in path " ++ cwd) ;;
    ret (path_to_scripts, mount_success)
  else
    path_to_scripts <- sys os_getcwd ;;
    assert_ (os_path_basename path_to_scripts =? curr_proj_folder) ;;
    print ("Running code in path " ++ path_to_scripts) ;;
    ret (path_to_scripts, mount_success).

(** The [if use_gpu] statement. *)
Definition gpu_probe (use_gpu : bool) : stmt (machine W) unit :=
  if use_gpu then
    try_except
      (gpu_info <- sys (check_output_decode "nvidia-smi") ;;
       print "******GPU is available and will be used:**********" ;;
       print gpu_info)
      SubprocessError
      (print "GPU check failed (nvidia-smi not found or no GPU available). Falling back to CPU.")
  else
    print "******use_gpu is set to False. Using CPU******".

End Halves.
End SetupParts.

(** ** The bootstrap of the LangChain notebook, which finds out by itself
    where it runs *)

Module SetupDetect.
Import Py Setup SetupParts.
Local Open Scope stmt_scope.
Local Open Scope string_scope.

(** Python's truth value of an optional string: [None] and the empty string
    count as false. *)
Definition truthy (s : option string) : bool :=
  match s with
  | None => false
  | Some s => negb (s =? "")
  end.

Section Detect.
Context {W : Type} `{Platform W}.

Definition setup_environment (curr_proj_folder : option string)
    (use_gpu : bool) : stmt (machine W) (bool * string * bool) :=
  run_local <-
    try_except (sys import_google_colab ;; ret false)
               ImportError
               (ret true) ;;
  let google_drive_base_folder := "Colab Notebooks" in
  (if negb run_local then print "Running Remote"
   else print "Running locally") ;;
  (* Initialize mount status for Colab *)
  let mount_success := false in
  if negb run_local then
    (* Remote run code *)
    sys (drive_mount "/content/drive") ;;
    mounted <- ask (os_path_ismount "/content/drive") ;;
    mount_success <-
      (if mounted
       then print "Google Drive mounted successfully!" ;; ret true
       else print "Drive mount failed." ;; ret mount_success) ;;
    let mount_path := "/content/drive/MyDrive" in
    let curr_proj_folder :=
      match curr_proj_folder with
      | None => "pretraining-llms"
      | Some folder => folder
      end in
    let path_to_scripts :=
      os_path_join mount_path
        [google_drive_base_folder; curr_proj_folder] in
    present <- ask (os_path_exists path_to_scripts) ;;
    (if negb present then sys (os_makedirs path_to_scripts)
     else ret tt) ;;
    sys (os_chdir path_to_scripts) ;;
    cwd <- sys os_getcwd ;;
    print ("Running code in path " ++ cwd) ;;
    ret (run_local, path_to_scripts, mount_success)
  else
    (* Local Run *)
    path_to_scripts <- sys os_getcwd ;;
    (if truthy curr_proj_folder
     then assert_ (match curr_proj_folder with
                   | Some folder => os_path_basename path_to_scripts =? folder
                   | None => false
                   end)
     else ret tt) ;;
    print ("Running code in path " ++ path_to_scripts) ;;
    gpu_probe use_gpu ;;
    ret (run_local, path_to_scripts, mount_success).

End Detect.

(** The condition of the cell that unmounts the drive at the end of the
    session, on the values a call returned:
    [if not run_local and mount_success]. *)
Definition unmounts (run_local mount_success : bool) : bool :=
  negb run_local && mount_success.

End SetupDetect.

(** ** Choosing the model to load or to call *)

Module ModelChoice.
Import Py Setup.
Local Open Scope string_scope.

(** [s.replace(old, new)] for a one-character [old]. *)
Fixpoint replace_char (old new : ascii) (s : string) : string :=
  match s with
  | EmptyString => EmptyString
  | String c s' =>
      String (if Ascii.eqb c old then new else c) (replace_char old new s')
  end.

Definition backslash : ascii := ascii_of_nat 92.

Fixpoint has_char (c : ascii) (s : string) : bool :=
  match s with
  | EmptyString => false
  | String c' s' => Ascii.eqb c' c || has_char c s'
  end.

Section Paths.
Context {W : Type} `{Platform W}.

(** The model-selection statements that open every lesson's loading cell. *)
Definition upstage_path (model_name : string) : string :=
  replace_char backslash "/" (os_path_join "upstage" [model_name]).

Definition model_path_or_name (path_to_scripts model_name : string)
    (load_model_from_folder : bool) : string :=
  if load_model_from_folder
  then os_path_join path_to_scripts ["models"; model_name]
  else upstage_path model_name.

End Paths.

(** A calendar date, ordered as [datetime.date] orders it: by year, then
    month, then day. *)
Record date : Type := mk_date { year : Z; month : Z; day : Z }.

Definition date_gt (a b : date) : bool :=
  ((year b <? year a)
   || ((year a =? year b)
       && ((month b <? month a)
           || ((month a =? month b) && (day b <? day a)))))%Z.

Definition target_date : date := mk_date 2024 6 12.

(** The model the LangChain notebook calls, from the current date. *)
Definition llm_model (current_date : date) : string :=
  if date_gt current_date target_date
  then "gpt-3.5-turbo"
  else "gpt-3.5-turbo-0301".

End ModelChoice.

(** ** Tokenizing the data set (cells 3.2 - 3.4 of Lesson 3) *)

Module Tokenize.
Import Py Numpy.

(** The tokenizer the notebook loads, as far as [tokenization] uses it. *)
Class Tokenizer : Type := {
  token : Type;
  tokenize : string -> list token;
  convert_tokens_to_ids : list token -> list Z;
  bos_token_id : Z;
  eos_token_id : Z
}.

(** A record of the data set once [tokenization] has been mapped over it:
    its text and the two fields the function adds. *)
Record example : Type := mk_example {
  text : string;
  input_ids : list Z;
  num_tokens : Z
}.

Section WithTokenizer.
Context `{Tokenizer}.

(** [tokenization(example)], on the [text] field of the record it is given. *)
Definition tokenization (example_text : string) : example :=
  (* Tokenize the text into tokens *)
  let tokens := tokenize example_text in
  (* Convert tokens to numerical IDs *)
  let token_ids := convert_tokens_to_ids tokens in
  (* Add special tokens *)
  let token_ids := [bos_token_id] ++ token_ids ++ [eos_token_id] in
  mk_example example_text token_ids (Z.of_nat (length token_ids)).

(** [dataset.map(tokenization)] on a data set with at least one record. *)
Definition dataset_map (texts : list string) : list example :=
  map tokenization texts.

End WithTokenizer.

(** A toy tokenizer to run the cells on: one token for each character, its
    code as id. *)
Definition bytes_tokenizer : Tokenizer := {|
  token := ascii;
  tokenize := list_ascii_of_string;
  convert_tokens_to_ids :=
    map (fun c : ascii => Z.of_nat (nat_of_ascii c));
  bos_token_id := 1;
  eos_token_id := 2
|}.

(** [dataset["input_ids"]] and [dataset["num_tokens"]]. *)
Definition column_input_ids (dataset : list example) : list (list Z) :=
  map input_ids dataset.

Definition column_num_tokens (dataset : list example) : list Z :=
  map num_tokens dataset.

Definition wrap_int64 (z : Z) : Z := (z + 2 ^ 63) mod 2 ^ 64 - 2 ^ 63.

(** The value of [np.sum(l)] on a list of Python [int]s: the sum in the
    arithmetic of NumPy's default integer, 64 bits wide here (32 bits on
    Windows before NumPy 2, where the sum is the same below [2^31]). *)
Definition np_sum (l : list Z) : Z := wrap_int64 (fold_right Z.add 0 l).

End Tokenize.

(** ** The training data set and the loss log (Lesson 5) *)

Module Training.
Import Py.

(** A one-dimensional [torch.LongTensor]. *)
Record tensor : Type := mk_tensor {
  shape : list Z;
  data : list Z
}.

(** [torch.LongTensor(l)] on a list of integers that fit 64 bits. *)
Definition LongTensor (l : list Z) : tensor :=
  mk_tensor [Z.of_nat (length l)] l.

(** [dataset[idx]["input_ids"]] on the rows of a [datasets.Dataset]: an index
    counts from the end when it is negative, and [None] stands for the
    [IndexError] of an index out of bounds. *)
Definition dataset_getitem (rows : list (list Z)) (idx : Z)
  : option (list Z) :=
  let size := Z.of_nat (length rows) in
  if ((idx <? 0) && (idx + size <? 0)) || (size <=? idx) then None
  else nth_error rows (Z.to_nat (idx mod size)).

Record CustomDataset : Type := mk_CustomDataset {
  dataset : list (list Z)      (* the input_ids column of self.dataset *)
}.

Record sample : Type := mk_sample {
  input_ids : tensor;
  labels : tensor
}.

(** [CustomDataset.__len__]. *)
Definition len_ (self : CustomDataset) : Z :=
  Z.of_nat (length (dataset self)).

(** [CustomDataset.__getitem__]. *)
Definition getitem (self : CustomDataset) (idx : Z) : option sample :=
  match dataset_getitem (dataset self) idx with
  | None => None
  | Some row =>
      let input_ids := LongTensor row in
      match dataset_getitem (dataset self) idx with
      | None => None
      | Some row' =>
          let labels := LongTensor row' in
          Some (mk_sample input_ids labels)
      end
  end.

(** [LossLoggingCallback]: the list of logs it has collected. *)
Record LossLoggingCallback (Log : Type) : Type := mk_callback {
  logs : list Log
}.
Arguments mk_callback {Log} logs.
Arguments logs {Log} _.

(** The logs among the [logs] arguments of a run of calls, [None] left
    out. *)
Definition reported {Log : Type} (calls : list (option Log)) : list Log :=
  flat_map (fun c => match c with Some l => [l] | None => [] end) calls.

(** [LossLoggingCallback.__init__]. *)
Definition init {Log : Type} : LossLoggingCallback Log := mk_callback [].

(** [LossLoggingCallback.on_log]; the trainer's other arguments play no
    part. *)
Definition on_log {Log : Type} (self : LossLoggingCallback Log)
    (new_logs : option Log) : LossLoggingCallback Log :=
  match new_logs with
  | Some l => mk_callback (logs self ++ [l])
  | None => self
  end.

End Training.

(** ** Facts about the NumPy fragment *)

Module NumpyFacts.
Import Py Numpy.

Lemma rows_of_length (r c : nat) (l : list Z) :
  length (rows_of r c l) = r.
Proof.
  revert l; induction r as [|r IH]; intros l; simpl; [reflexivity|].
  now rewrite IH.
Qed.

Lemma rows_of_width (r c : nat) (l : list Z) :
  length l = (r * c)%nat ->
  Forall (fun row => length row = c) (rows_of r c l).
Proof.
  revert l; induction r as [|r IH]; intros l Hl; simpl; constructor.
  - rewrite length_firstn. simpl in Hl. lia.
  - apply IH. rewrite length_skipn. simpl in Hl. lia.
Qed.

Lemma concat_rows_of (r c : nat) (l : list Z) :
  length l = (r * c)%nat -> concat (rows_of r c l) = l.
Proof.
  revert l; induction r as [|r IH]; intros l Hl; simpl.
  - simpl in Hl. now destruct l.
  - rewrite IH.
    + apply firstn_skipn.
    + rewrite length_skipn. simpl in Hl. lia.
Qed.

Lemma nth_error_rows_of (r c : nat) (l : list Z) (i : nat) :
  (i < r)%nat ->
  nth_error (rows_of r c l) i = Some (firstn c (skipn (i * c) l)).
Proof.
  revert l i; induction r as [|r IH]; intros l i Hi; [lia|].
  destruct i as [|i]; simpl; [reflexivity|].
  rewrite IH by lia. now rewrite skipn_skipn, Nat.add_comm.
Qed.

Lemma Forall_firstn {A} (P : A -> Prop) (n : nat) (l : list A) :
  Forall P l -> Forall P (firstn n l).
Proof.
  intros Hl; revert n; induction Hl as [|x l Hx _ IH]; intros [|n]; simpl;
    constructor; auto.
Qed.

Lemma Forall_skipn {A} (P : A -> Prop) (n : nat) (l : list A) :
  Forall P l -> Forall P (skipn n l).
Proof.
  intros Hl; revert n; induction Hl as [|x l Hx Hl IH]; intros [|n]; simpl;
    auto.
Qed.

Lemma wrap_int32_range (z : Z) : in_int32 (wrap_int32 z) = true.
Proof.
  unfold in_int32, wrap_int32, int32_min, int32_max.
  pose proof (Z.mod_pos_bound (z + 2 ^ 31) (2 ^ 32) ltac:(lia)).
  apply andb_true_iff; split; apply Z.leb_le; lia.
Qed.

Lemma wrap_int32_id (z : Z) : in_int32 z = true -> wrap_int32 z = z.
Proof.
  unfold in_int32, wrap_int32, int32_min, int32_max; intros H.
  apply andb_true_iff in H; destruct H as [H1 H2].
  apply Z.leb_le in H1, H2.
  rewrite Z.mod_small by lia. lia.
Qed.

Lemma cast_int32_range (dt : dtype) (z : Z) :
  dt <> Int32 -> in_int32 (cast_int32 dt z) = true.
Proof.
  destruct dt; simpl; intros H; [apply wrap_int32_range| |congruence].
  destruct (in_int32 z) eqn:E; [exact E|reflexivity].
Qed.

Lemma cast_int32_id (dt : dtype) (z : Z) :
  in_int32 z = true -> cast_int32 dt z = z.
Proof.
  intros H; destruct dt; simpl; [now apply wrap_int32_id| |reflexivity].
  now rewrite H.
Qed.


Lemma seq_dtype_cases (l : list Z) :
  seq_dtype l = Float64 \/ seq_dtype l = Int64.
Proof. destruct l; [left | right]; reflexivity. Qed.

Lemma fold_promote_cases (ls : list (list Z)) (d : dtype) :
  d <> Int32 -> fold_left promote (map seq_dtype ls) d <> Int32.
Proof.
  revert d; induction ls as [|l ls IH]; intros d Hd; simpl; [exact Hd|].
  apply IH. destruct (seq_dtype_cases l) as [-> | ->]; destruct d;
    simpl; congruence.
Qed.

(** A concatenation of lists of Python [int]s is never an [int32] array. *)
Lemma concat_dtype_not_int32 (s : list Z) (rest : list (list Z)) :
  concat_dtype s rest <> Int32.
Proof.
  apply fold_promote_cases.
  destruct (seq_dtype_cases s) as [-> | ->]; congruence.
Qed.

(** It is an [int64] array when no record is empty. *)
Lemma concat_dtype_int64 (s : list Z) (rest : list (list Z)) :
  Forall (fun l => l <> []) (s :: rest) -> concat_dtype s rest = Int64.
Proof.
  intros Hne. inversion Hne as [|? ? Hs Hrest]; subst.
  unfold concat_dtype.
  replace (seq_dtype s) with Int64 by (destruct s; [congruence | reflexivity]).
  clear Hne Hs. induction Hrest as [|l ls Hl _ IH]; simpl; [reflexivity|].
  destruct l; [congruence | exact IH].
Qed.

End NumpyFacts.

(** ** What the packing cells compute *)

Module PackingFacts.
Import Py Numpy Lesson3 NumpyFacts.

Lemma ntokens_nonneg (seqs : list (list Z)) : 0 <= ntokens seqs.
Proof. unfold ntokens. lia. Qed.

Lemma count_elements_ntokens (seqs : list (list Z)) :
  count_elements seqs = ntokens seqs.
Proof.
  unfold ntokens, flat.
  induction seqs as [|s seqs IH]; simpl; [reflexivity|].
  rewrite length_app, IH. lia.
Qed.

(** Truncation to a multiple of a positive width. *)
Lemma kept_pos (L : Z) (seqs : list (list Z)) :
  0 < L ->
  0 <= kept L seqs <= ntokens seqs /\
  kept L seqs = ntokens seqs / L * L /\
  kept L seqs mod L = 0 /\
  kept L seqs / L = ntokens seqs / L.
Proof.
  intros HL. unfold kept.
  pose proof (ntokens_nonneg seqs) as Hn.
  pose proof (Z.mod_pos_bound (ntokens seqs) L HL) as Hm.
  pose proof (Z.div_mod (ntokens seqs) L ltac:(lia)) as Hd.
  pose proof (Z.mod_le (ntokens seqs) L Hn HL) as Hle.
  assert (E : ntokens seqs - ntokens seqs mod L = ntokens seqs / L * L) by lia.
  split; [lia | split; [exact E | split]].
  - rewrite E. apply Z.mod_mul. lia.
  - rewrite E. apply Z.div_mul. lia.
Qed.

(** With a negative width Python's remainder is not positive, so nothing is
    cut off. *)
Lemma kept_neg (L : Z) (seqs : list (list Z)) :
  L < 0 -> ntokens seqs <= kept L seqs.
Proof.
  intros HL. unfold kept.
  pose proof (Z.mod_neg_bound (ntokens seqs) L HL). lia.
Qed.

Lemma slice_to_inside (dt : dtype) (T : list Z) (t : Z) :
  0 <= t <= Z.of_nat (length T) ->
  slice_to (mk_ndarray dt [Z.of_nat (length T)] T) t =
  mk_ndarray dt [t] (firstn (Z.to_nat t) T).
Proof.
  intros Ht. unfold slice_to, Py.slice_to; cbn [nd_data nd_dtype].
  destruct (t <? 0) eqn:E; [apply Z.ltb_lt in E; lia|].
  rewrite Z.min_l by lia. rewrite length_firstn.
  f_equal. f_equal. lia.
Qed.

Lemma slice_to_beyond (dt : dtype) (T : list Z) (t : Z) :
  Z.of_nat (length T) <= t ->
  slice_to (mk_ndarray dt [Z.of_nat (length T)] T) t =
  mk_ndarray dt [Z.of_nat (length T)] T.
Proof.
  intros Ht. unfold slice_to, Py.slice_to; cbn [nd_data nd_dtype].
  destruct (t <? 0) eqn:E; [apply Z.ltb_lt in E; lia|].
  rewrite Z.min_r by lia. rewrite Nat2Z.id, firstn_all. reflexivity.
Qed.

(** On no records at all [np.concatenate] raises and nothing else runs. *)
Lemma pack_cells_nil (nb : notebook) (L : Z) :
  dataset_input_ids nb = [] -> pack_cells L nb = (Raise ValueError, nb).
Proof. intros Hds. run_stmt. rewrite Hds. reflexivity. Qed.

(** A positive width: every statement of the packer runs. *)
Lemma pack_cells_pos (nb : notebook) (L : Z) (s : list Z) (rest : list (list Z)) :
  0 < L -> dataset_input_ids nb = s :: rest ->
  pack_cells L nb =
    (Ok tt,
     mk_notebook (s :: rest)
       (Some (truncated L s rest))
       (Some L) (Some (kept L (s :: rest)))
       (Some (reshaped L s rest))
       (Some (tolist2 (reshaped L s rest)))
       (stdout nb ++ packed_stdout L s rest)).
Proof.
  intros HL Hds.
  destruct (kept_pos L (s :: rest) HL) as (Ht & _ & Hmod & Hdiv).
  run_stmt. rewrite Hds. unfold concatenate. run_stmt.
  unfold mod_. destruct (L =? 0) eqn:E0; [apply Z.eqb_eq in E0; lia|].
  run_stmt.
  change (concat (s :: rest)) with (flat (s :: rest)).
  change (Z.of_nat (length (flat (s :: rest)))) with (ntokens (s :: rest)).
  change (ntokens (s :: rest) - ntokens (s :: rest) mod L)
    with (kept L (s :: rest)).
  rewrite (slice_to_inside _ _ _ Ht
           : slice_to (mk_ndarray _ [ntokens _] _) _ = truncated L s rest).
  assert (Hsz : size (truncated L s rest) = kept L (s :: rest)).
  { unfold size, truncated; cbn [nd_data]. rewrite length_firstn.
    unfold ntokens in Ht. lia. }
  unfold reshape_m1. rewrite Hsz.
  destruct (L <? 0) eqn:E1; [apply Z.ltb_lt in E1; lia|].
  rewrite Hmod, E0. cbn [Z.eqb negb orb]. rewrite Hdiv.
  run_stmt.
  change (astype_int32 _) with (reshaped L s rest).
  unfold packed_stdout, line_concatenated, line_adjusted.
  rewrite <- !app_assoc. reflexivity.
Qed.

(** Width zero: the remainder in the first statement of cell 4.2 raises,
    after cell 4.1 has run. *)
Lemma pack_cells_zero (nb : notebook) (s : list Z) (rest : list (list Z)) :
  dataset_input_ids nb = s :: rest ->
  pack_cells 0 nb =
    (Raise ZeroDivisionError,
     mk_notebook (s :: rest)
       (Some (concatenated s rest))
       (Some 0) (total_length nb)
       (input_ids_reshaped nb) (input_ids_list nb)
       (stdout nb ++ [line_concatenated s rest])).
Proof.
  intros Hds. run_stmt. rewrite Hds. unfold concatenate. run_stmt.
  reflexivity.
Qed.

(** A negative width: cell 4.1 and the truncation run, then [reshape]
    refuses the second negative extent. *)
Lemma pack_cells_neg (nb : notebook) (L : Z) (s : list Z) (rest : list (list Z)) :
  L < 0 -> dataset_input_ids nb = s :: rest ->
  pack_cells L nb =
    (Raise ValueError,
     mk_notebook (s :: rest)
       (Some (concatenated s rest))
       (Some L) (Some (kept L (s :: rest)))
       (input_ids_reshaped nb) (input_ids_list nb)
       (stdout nb ++ [line_concatenated s rest; line_adjusted L s rest;
                      ("Shape after truncation: "
                         ++ str_shape (concatenated s rest))%string])).
Proof.
  intros HL Hds.
  pose proof (kept_neg L (s :: rest) HL) as Ht.
  run_stmt. rewrite Hds. unfold concatenate. run_stmt.
  unfold mod_. destruct (L =? 0) eqn:E0; [apply Z.eqb_eq in E0; lia|].
  run_stmt.
  change (concat (s :: rest)) with (flat (s :: rest)).
  change (Z.of_nat (length (flat (s :: rest)))) with (ntokens (s :: rest)).
  change (ntokens (s :: rest) - ntokens (s :: rest) mod L)
    with (kept L (s :: rest)).
  rewrite (slice_to_beyond _ _ _ Ht
           : slice_to (mk_ndarray _ [ntokens _] _) _ = concatenated s rest).
  unfold reshape_m1.
  destruct (L <? 0) eqn:E1; [|apply Z.ltb_ge in E1; lia].
  run_stmt. unfold line_concatenated, line_adjusted.
  rewrite <- !app_assoc. reflexivity.
Qed.

(** *** The rows, from a fresh kernel and from any other *)

Lemma pack_nil (L : Z) : pack L [] = Raise ValueError.
Proof. unfold pack. now rewrite pack_cells_nil. Qed.

Lemma pack_pos (L : Z) (s : list Z) (rest : list (list Z)) :
  0 < L -> pack L (s :: rest) = Ok (tolist2 (reshaped L s rest)).
Proof. intros HL. unfold pack. now rewrite (pack_cells_pos _ L s rest HL). Qed.

Lemma pack_zero (s : list Z) (rest : list (list Z)) :
  pack 0 (s :: rest) = Raise ZeroDivisionError.
Proof. unfold pack. now rewrite (pack_cells_zero _ s rest). Qed.

Lemma pack_neg (L : Z) (s : list Z) (rest : list (list Z)) :
  L < 0 -> pack L (s :: rest) = Raise ValueError.
Proof. intros HL. unfold pack. now rewrite (pack_cells_neg _ L s rest HL). Qed.

(** Whatever earlier runs left in the notebook, the rows are those of a
    fresh kernel on the same data set. *)
Lemma rows_after_pack_cells (L : Z) (nb : notebook) :
  rows_after (pack_cells L nb) = pack L (dataset_input_ids nb).
Proof.
  destruct (dataset_input_ids nb) as [|s rest] eqn:Hds.
  - now rewrite pack_cells_nil, pack_nil.
  - destruct (Z.lt_trichotomy L 0) as [HL | [HL | HL]].
    + now rewrite (pack_cells_neg nb L s rest HL Hds), pack_neg.
    + subst L. now rewrite (pack_cells_zero nb s rest Hds), pack_zero.
    + now rewrite (pack_cells_pos nb L s rest HL Hds), pack_pos.
Qed.

Lemma dataset_after_pack_cells (L : Z) (nb : notebook) :
  dataset_input_ids (snd (pack_cells L nb)) = dataset_input_ids nb.
Proof.
  destruct (dataset_input_ids nb) as [|s rest] eqn:Hds.
  - now rewrite pack_cells_nil.
  - destruct (Z.lt_trichotomy L 0) as [HL | [HL | HL]].
    + now rewrite (pack_cells_neg nb L s rest HL Hds).
    + subst L. now rewrite (pack_cells_zero nb s rest Hds).
    + now rewrite (pack_cells_pos nb L s rest HL Hds).
Qed.

(** The cells on small inputs. *)

Example pack_one_full_row : pack 3 [[1]; [2; 3]] = Ok [[1; 2; 3]].
Proof. reflexivity. Qed.

Example pack_too_short : pack 5 [[1; 2]] = Ok [].
Proof. reflexivity. Qed.

Example pack_empty_sequences : pack 5 [[]; []] = Ok [].
Proof. reflexivity. Qed.

Example pack_no_sequences : pack 5 [] = Raise ValueError.
Proof. reflexivity. Qed.

Example pack_width_zero : pack 0 [[1; 2]] = Raise ZeroDivisionError.
Proof. reflexivity. Qed.

Example pack_width_minus_two : pack (-2) [[1; 2; 3]] = Raise ValueError.
Proof. reflexivity. Qed.

Example pack_cells_printed :
  stdout (snd (pack_cells 4 (fresh [[1; 2; 3]; [4; 5]; [6; 7; 8; 9; 10]])))
  = [ "Total number of concatenated tokens: 10"%string;
      "Adjusted total length: 8"%string;
      "Shape after truncation: (8,)"%string;
      "Shape after reshaping: (2, 4)"%string ].
Proof. reflexivity. Qed.

(** *** The buffer behind the rows *)

Lemma tolist2_reshaped (L : Z) (s : list Z) (rest : list (list Z)) :
  tolist2 (reshaped L s rest) =
  rows_of (Z.to_nat (ntokens (s :: rest) / L)) (Z.to_nat L)
          (packed_data L (s :: rest)).
Proof. reflexivity. Qed.

Lemma packed_data_length (L : Z) (seqs : list (list Z)) :
  0 < L ->
  length (packed_data L seqs) =
  (Z.to_nat (ntokens seqs / L) * Z.to_nat L)%nat.
Proof.
  intros HL. destruct (kept_pos L seqs HL) as (Ht & E & _ & _).
  unfold packed_data. rewrite length_map, length_firstn.
  unfold ntokens in Ht.
  rewrite Nat.min_l by lia.
  rewrite E, Z2Nat.inj_mul; [reflexivity| |lia].
  apply Z.div_pos; [apply ntokens_nonneg | exact HL].
Qed.

Lemma chunk_of_prefix (c k t : nat) (T : list Z) :
  (k + c <= t)%nat ->
  firstn c (skipn k (firstn t T)) = firstn c (skipn k T).
Proof.
  intros Hle.
  rewrite !skipn_firstn_comm, firstn_firstn.
  now rewrite Nat.min_l by lia.
Qed.

(** Row [i] is the cast of chunk [i] of the flattened input. *)
Lemma nth_error_rows (L : Z) (seqs : list (list Z)) (i : nat) :
  0 < L -> Z.of_nat i < ntokens seqs / L ->
  nth_error (rows_of (Z.to_nat (ntokens seqs / L)) (Z.to_nat L)
                     (packed_data L seqs)) i =
  Some (map (cast_int32 (input_dtype seqs)) (chunk L i (flat seqs))).
Proof.
  intros HL Hi. destruct (kept_pos L seqs HL) as (Ht & E & _ & _).
  rewrite nth_error_rows_of by lia.
  unfold packed_data, chunk.
  rewrite skipn_map, firstn_map.
  rewrite chunk_of_prefix; [reflexivity|].
  rewrite E.
  assert (0 <= ntokens seqs / L)
    by (apply Z.div_pos; [apply ntokens_nonneg | exact HL]).
  rewrite Z2Nat.inj_mul by lia. nia.
Qed.

(** The packer produces rows exactly on a positive width and a collection
    with a sequence in it. *)
Lemma pack_ok_inv (L : Z) (seqs : list (list Z)) (rows : list (list Z)) :
  pack L seqs = Ok rows ->
  0 < L /\ seqs <> [] /\
  rows = rows_of (Z.to_nat (ntokens seqs / L)) (Z.to_nat L) (packed_data L seqs).
Proof.
  intros Hrows. destruct seqs as [|s rest].
  - rewrite pack_nil in Hrows. discriminate Hrows.
  - destruct (Z.lt_trichotomy L 0) as [HL | [HL | HL]].
    + rewrite (pack_neg L s rest HL) in Hrows. discriminate Hrows.
    + subst L. rewrite pack_zero in Hrows. discriminate Hrows.
    + rewrite (pack_pos L s rest HL), tolist2_reshaped in Hrows.
      split; [exact HL | split; [discriminate | congruence]].
Qed.

(** What a run prints and how it ends depends on the data set and the width
    alone. *)
Lemma pack_cells_frame (L : Z) (nb1 nb2 : notebook) :
  dataset_input_ids nb1 = dataset_input_ids nb2 ->
  fst (pack_cells L nb1) = fst (pack_cells L nb2) /\
  exists lines,
    stdout (snd (pack_cells L nb1)) = stdout nb1 ++ lines /\
    stdout (snd (pack_cells L nb2)) = stdout nb2 ++ lines.
Proof.
  intros Hsame.
  destruct (dataset_input_ids nb2) as [|s rest] eqn:Hds.
  - rewrite !pack_cells_nil by assumption.
    split; [reflexivity | exists []]. now rewrite !app_nil_r.
  - destruct (Z.lt_trichotomy L 0) as [HL | [HL | HL]].
    + rewrite (pack_cells_neg nb1 L s rest HL Hsame),
              (pack_cells_neg nb2 L s rest HL Hds).
      split; [reflexivity | eexists; split; reflexivity].
    + subst L. rewrite (pack_cells_zero nb1 s rest Hsame),
                       (pack_cells_zero nb2 s rest Hds).
      split; [reflexivity | eexists; split; reflexivity].
    + rewrite (pack_cells_pos nb1 L s rest HL Hsame),
              (pack_cells_pos nb2 L s rest HL Hds).
      split; [reflexivity | eexists; split; reflexivity].
Qed.

End PackingFacts.

(** ** The packing contract *)

Module PackingContract.
Import Py Numpy Lesson3 NumpyFacts PackingFacts.

Lemma rows_width (L : Z) (seqs : list (list Z)) :
  0 < L ->
  Forall (fun row => Z.of_nat (length row) = L)
         (rows_of (Z.to_nat (ntokens seqs / L)) (Z.to_nat L)
                  (packed_data L seqs)).
Proof.
  intros HL.
  eapply Forall_impl; [|apply rows_of_width, packed_data_length, HL].
  cbn beta. intros row Hrow. lia.
Qed.

Lemma rows_concat (L : Z) (seqs : list (list Z)) :
  0 < L ->
  concat (rows_of (Z.to_nat (ntokens seqs / L)) (Z.to_nat L)
                  (packed_data L seqs)) = packed_data L seqs.
Proof. intros HL. apply concat_rows_of, packed_data_length, HL. Qed.

Lemma packed_data_count (L : Z) (seqs : list (list Z)) :
  0 < L -> Z.of_nat (length (packed_data L seqs)) = ntokens seqs / L * L.
Proof.
  intros HL. rewrite packed_data_length by exact HL.
  assert (0 <= ntokens seqs / L)
    by (apply Z.div_pos; [apply ntokens_nonneg | exact HL]).
  lia.
Qed.

(** C1.  For a positive row width [L] the packer either produces rows or
    raises, and it raises only on a collection with no sequence in it.
    Every row it produces has exactly [L] elements, and the rows together
    hold [floor(total_input_tokens / L) * L] elements, where
    [total_input_tokens] is the sum of the input sequence lengths. *)
Theorem pack_row_width_and_count (L : Z) (seqs : list (list Z)) :
  0 < L ->
  match pack L seqs with
  | Ok rows =>
      Forall (fun row => Z.of_nat (length row) = L) rows /\
      count_elements rows = count_elements seqs / L * L
  | Raise e => seqs = [] /\ e = ValueError
  end.
Proof.
  intros HL. destruct seqs as [|s rest].
  - rewrite pack_nil. split; reflexivity.
  - rewrite pack_pos, tolist2_reshaped by exact HL. split.
    + apply rows_width, HL.
    + rewrite !count_elements_ntokens. unfold ntokens at 1, flat at 1.
      rewrite rows_concat by exact HL. apply packed_data_count, HL.
Qed.

Lemma pack_row_width_and_count_witness :
  0 < 4 /\
  match pack 4 [[1; 2; 3]; [4; 5]; [6; 7; 8; 9; 10]] with
  | Ok rows =>
      Forall (fun row => Z.of_nat (length row) = 4) rows /\
      count_elements rows
      = count_elements [[1; 2; 3]; [4; 5]; [6; 7; 8; 9; 10]] / 4 * 4
  | Raise e => [[1; 2; 3]; [4; 5]; [6; 7; 8; 9; 10]] = [] /\ e = ValueError
  end.
Proof.
  split; [lia|].
  apply (pack_row_width_and_count 4 [[1; 2; 3]; [4; 5]; [6; 7; 8; 9; 10]]).
  lia.
Defined.

(** C7.  The sequences [[1,2,3],[4,5],[6,7,8,9,10]] pack with [L = 4] into
    exactly the two rows [[1,2,3,4],[5,6,7,8]]; the tokens 9 and 10 are in
    no row. *)
Theorem pack_worked_example :
  pack 4 [[1; 2; 3]; [4; 5]; [6; 7; 8; 9; 10]]
  = Ok [[1; 2; 3; 4]; [5; 6; 7; 8]] /\
  match pack 4 [[1; 2; 3]; [4; 5]; [6; 7; 8; 9; 10]] with
  | Ok rows => Forall (fun row => ~ In 9 row /\ ~ In 10 row) rows
  | Raise _ => False
  end.
Proof.
  split; [reflexivity|].
  change (pack 4 [[1; 2; 3]; [4; 5]; [6; 7; 8; 9; 10]])
    with (@Ok (list (list Z)) [[1; 2; 3; 4]; [5; 6; 7; 8]]).
  repeat constructor; simpl; intuition lia.
Qed.

Lemma cast_chunk_in_range (dt : dtype) (L : Z) (i : nat) (T : list Z) :
  Forall (fun z => in_int32 z = true) T ->
  map (cast_int32 dt) (chunk L i T) = chunk L i T.
Proof.
  intros HT.
  assert (Hc : Forall (fun z => in_int32 z = true) (chunk L i T)).
  { unfold chunk. now apply Forall_firstn, Forall_skipn. }
  induction Hc as [|z l Hz _ IH]; simpl; [reflexivity|].
  now rewrite IH, cast_int32_id.
Qed.

(** C2, as the cells have it.  For a positive row width [L] the packer
    raises only on a collection with no sequence in it.  Otherwise it
    produces [floor(total_input_tokens / L)] rows, and row [i] holds, in
    order, the [np.int32] casts of the elements at positions
    [i*L, (i+1)*L) of the flattened concatenation of the input sequences
    taken in collection order: consecutive chunks that do not overlap.  When
    every token id lies in [-2^31, 2^31) the cast changes nothing and row [i]
    is exactly that chunk. *)
Theorem pack_rows_are_cast_chunks (L : Z) (seqs : list (list Z)) :
  0 < L ->
  match pack L seqs with
  | Ok rows =>
      Z.of_nat (length rows) = ntokens seqs / L /\
      (forall i, Z.of_nat i < ntokens seqs / L ->
         nth_error rows i
         = Some (map (cast_int32 (input_dtype seqs)) (chunk L i (flat seqs)))) /\
      (Forall (fun z => in_int32 z = true) (flat seqs) ->
       forall i, Z.of_nat i < ntokens seqs / L ->
         nth_error rows i = Some (chunk L i (flat seqs)))
  | Raise e => seqs = [] /\ e = ValueError
  end.
Proof.
  intros HL. destruct seqs as [|s rest].
  - rewrite pack_nil. split; reflexivity.
  - rewrite pack_pos, tolist2_reshaped by exact HL.
    assert (0 <= ntokens (s :: rest) / L)
      by (apply Z.div_pos; [apply ntokens_nonneg | exact HL]).
    split; [rewrite rows_of_length; lia | split].
    + intros i Hi. now apply nth_error_rows.
    + intros Hrange i Hi.
      rewrite nth_error_rows by assumption.
      now rewrite cast_chunk_in_range.
Qed.

Lemma pack_rows_are_cast_chunks_witness :
  0 < 4 /\
  match pack 4 [[1; 2; 3]; [4; 5]; [6; 7; 8; 9; 10]] with
  | Ok rows =>
      Z.of_nat (length rows)
      = ntokens [[1; 2; 3]; [4; 5]; [6; 7; 8; 9; 10]] / 4 /\
      (forall i,
         Z.of_nat i < ntokens [[1; 2; 3]; [4; 5]; [6; 7; 8; 9; 10]] / 4 ->
         nth_error rows i
         = Some (map (cast_int32
                        (input_dtype [[1; 2; 3]; [4; 5]; [6; 7; 8; 9; 10]]))
                     (chunk 4 i (flat [[1; 2; 3]; [4; 5]; [6; 7; 8; 9; 10]])))) /\
      (Forall (fun z => in_int32 z = true)
              (flat [[1; 2; 3]; [4; 5]; [6; 7; 8; 9; 10]]) ->
       forall i,
         Z.of_nat i < ntokens [[1; 2; 3]; [4; 5]; [6; 7; 8; 9; 10]] / 4 ->
         nth_error rows i
         = Some (chunk 4 i (flat [[1; 2; 3]; [4; 5]; [6; 7; 8; 9; 10]])))
  | Raise e => [[1; 2; 3]; [4; 5]; [6; 7; 8; 9; 10]] = [] /\ e = ValueError
  end.
Proof.
  split; [lia|].
  apply (pack_rows_are_cast_chunks 4 [[1; 2; 3]; [4; 5]; [6; 7; 8; 9; 10]]).
  lia.
Defined.

(** C2, as the contract words it, fails on a token id that does not fit 32
    bits: the one row of [[2147483648]] packed with [L = 1] holds
    [-2147483648], not the element at position 0 of the concatenation. *)
Lemma rows_are_chunks_counterexample :
  0 < 1 /\ ~ rows_are_chunks 1 [[2147483648]].
Proof.
  split; [lia|]. intros Hclaim.
  specialize (Hclaim [[-2147483648]] eq_refl 0%nat [-2147483648] eq_refl).
  discriminate Hclaim.
Qed.

(** C3, as the cells have it.  No statement checks the row width.  On a
    collection with at least one sequence and a width [L <= 0] the cells
    still end in an exception and assign no rows ([input_ids_reshaped] and
    [input_ids_list] stay as they were): [ZeroDivisionError] from the
    remainder when [L = 0], [ValueError] from [reshape] when [L < 0].  The
    exception comes after processing has begun: the concatenation has run,
    its line is printed and [input_ids] is assigned, and for [L < 0] the
    truncation step has run as well. *)
Theorem nonpositive_width_raises_late
    (L : Z) (s : list Z) (rest : list (list Z)) (nb : notebook) :
  L <= 0 -> dataset_input_ids nb = s :: rest ->
  pack L (s :: rest)
  = Raise (if L =? 0 then ZeroDivisionError else ValueError) /\
  fst (pack_cells L nb)
  = Raise (if L =? 0 then ZeroDivisionError else ValueError) /\
  input_ids_reshaped (snd (pack_cells L nb)) = input_ids_reshaped nb /\
  input_ids_list (snd (pack_cells L nb)) = input_ids_list nb /\
  input_ids (snd (pack_cells L nb)) = Some (concatenated s rest) /\
  total_length (snd (pack_cells L nb))
  = (if L =? 0 then total_length nb else Some (kept L (s :: rest))) /\
  stdout (snd (pack_cells L nb))
  = stdout nb ++
    line_concatenated s rest
    :: (if L =? 0 then []
        else [line_adjusted L s rest;
              ("Shape after truncation: "
                 ++ str_shape (concatenated s rest))%string]).
Proof.
  intros HL Hds.
  destruct (Z.eq_dec L 0) as [-> | Hne].
  - rewrite pack_zero, (pack_cells_zero nb s rest Hds). cbn.
    repeat split; reflexivity.
  - assert (Hneg : L < 0) by lia.
    rewrite (pack_neg L s rest Hneg), (pack_cells_neg nb L s rest Hneg Hds).
    destruct (L =? 0) eqn:E; [apply Z.eqb_eq in E; lia|]. cbn.
    repeat split; reflexivity.
Qed.

Lemma nonpositive_width_raises_late_witness :
  -1 <= 0 /\ dataset_input_ids (fresh [[1; 2]]) = [1; 2] :: [] /\
  pack (-1) [[1; 2]] = Raise ValueError /\
  stdout (snd (pack_cells (-1) (fresh [[1; 2]])))
  = [ "Total number of concatenated tokens: 2"%string;
      "Adjusted total length: 2"%string;
      "Shape after truncation: (2,)"%string ].
Proof.
  split; [lia | split; [reflexivity|]].
  destruct (nonpositive_width_raises_late (-1) [1; 2] [] (fresh [[1; 2]])
              ltac:(lia) eq_refl)
    as (Hpack & _ & _ & _ & _ & _ & Hout).
  split; [exact Hpack | exact Hout].
Defined.

(** C3, as the contract words it, fails: with [L = -1] on [[1, 2]] the
    cells raise only after they have assigned [input_ids] and
    [total_length] and printed three lines, so the failure does not come
    before any processing begins. *)
Lemma fails_before_processing_counterexample :
  [[1; 2]] <> [] /\ -1 <= 0 /\ ~ fails_before_processing (-1) [[1; 2]].
Proof.
  split; [discriminate | split; [lia|]].
  intros [e He]. vm_compute in He. discriminate He.
Qed.

(** The same holds of every non-positive width and every collection with a
    sequence in it. *)
Lemma never_fails_before_processing
    (L : Z) (s : list Z) (rest : list (list Z)) :
  L <= 0 -> ~ fails_before_processing L (s :: rest).
Proof.
  intros HL [e He].
  destruct (Z.eq_dec L 0) as [-> | Hne].
  - rewrite (pack_cells_zero (fresh (s :: rest)) s rest eq_refl) in He.
    discriminate He.
  - rewrite (pack_cells_neg (fresh (s :: rest)) L s rest ltac:(lia) eq_refl)
      in He.
    discriminate He.
Qed.

Lemma all_empty_ntokens (seqs : list (list Z)) :
  Forall (fun s => s = []) seqs -> ntokens seqs = 0.
Proof.
  unfold ntokens, flat.
  induction 1 as [|s seqs Hs _ IH]; simpl; [reflexivity|].
  subst s. exact IH.
Qed.

Lemma packed_data_short (L : Z) (seqs : list (list Z)) :
  0 < L -> ntokens seqs < L -> ntokens seqs / L = 0.
Proof.
  intros HL Hlt. apply Z.div_small. pose proof (ntokens_nonneg seqs). lia.
Qed.

(** C4, as the cells have it.  For a positive row width [L], a collection
    that has at least one sequence and in which every sequence is empty, or
    whose sequences hold fewer than [L] tokens together, packs without an
    error to an empty collection of rows.  A collection with no sequence in
    it does not: [np.concatenate] raises [ValueError] on it. *)
Theorem short_input_rows (L : Z) (seqs : list (list Z)) :
  0 < L ->
  Forall (fun s => s = []) seqs \/ count_elements seqs < L ->
  pack L seqs = match seqs with
                | [] => Raise ValueError
                | _ :: _ => Ok []
                end.
Proof.
  intros HL Hshort.
  assert (Hlt : ntokens seqs < L).
  { destruct Hshort as [Hall | Hlt].
    - rewrite (all_empty_ntokens seqs Hall). exact HL.
    - now rewrite <- count_elements_ntokens. }
  destruct seqs as [|s rest]; [apply pack_nil|].
  rewrite pack_pos, tolist2_reshaped by exact HL.
  now rewrite packed_data_short.
Qed.

Lemma short_input_rows_witness :
  0 < 5 /\
  (Forall (fun s => s = []) [[1; 2]] \/ count_elements [[1; 2]] < 5) /\
  pack 5 [[1; 2]] = Ok [].
Proof.
  assert (Hshort : Forall (fun s => s = []) [[1; 2]]
                   \/ count_elements [[1; 2]] < 5)
    by (right; vm_compute; reflexivity).
  split; [lia | split; [exact Hshort|]].
  apply (short_input_rows 5 [[1; 2]]); [lia | exact Hshort].
Defined.

(** C4, as the contract words it, fails on the empty collection: with
    [L = 1] the packer does not complete with no rows, it raises. *)
Lemma short_input_counterexample :
  0 < 1 /\ ~ short_input_packs_to_no_rows 1 [].
Proof.
  split; [lia|]. intros Hclaim.
  specialize (Hclaim (or_introl eq_refl)).
  discriminate Hclaim.
Qed.

Lemma map_cast_in_range (dt : dtype) (l : list Z) :
  Forall (fun z => in_int32 z = true) l -> map (cast_int32 dt) l = l.
Proof.
  induction 1 as [|z l Hz _ IH]; simpl; [reflexivity|].
  now rewrite IH, cast_int32_id.
Qed.

(** C5, as the cells have it.  For a positive row width [L] the packer
    raises only on a collection with no sequence in it.  Otherwise the
    flattened concatenation splits into a head and a tail of
    [total_input_tokens mod L] elements, and the rows, read in order, are
    the [np.int32] casts of the head: every position before the tail feeds
    a row and no position of the tail does.  When the elements of the head
    lie in [-2^31, 2^31) the cast changes nothing and the rows, read in
    order, are the head itself.  The tail is not carried forward: after the
    run [input_ids] holds the head only, and a later run of the cells on any
    data set and width gives the rows a fresh kernel gives. *)
Theorem trailing_remainder_dropped
    (L : Z) (seqs : list (list Z)) (nb : notebook) :
  0 < L -> dataset_input_ids nb = seqs ->
  match rows_after (pack_cells L nb) with
  | Ok rows =>
      exists head tail,
        pack L seqs = Ok rows /\
        flat seqs = head ++ tail /\
        Z.of_nat (length tail) = ntokens seqs mod L /\
        concat rows = map (cast_int32 (input_dtype seqs)) head /\
        (Forall (fun z => in_int32 z = true) head -> concat rows = head) /\
        option_map nd_data (input_ids (snd (pack_cells L nb))) = Some head
  | Raise e => seqs = [] /\ e = ValueError
  end /\
  forall L' seqs',
    rows_after (pack_cells L' (load seqs' (snd (pack_cells L nb))))
    = pack L' seqs'.
Proof.
  intros HL Hds. split.
  - destruct seqs as [|s rest].
    + rewrite (pack_cells_nil nb L Hds). split; reflexivity.
    + destruct (kept_pos L (s :: rest) HL) as (Ht & _ & _ & _).
      rewrite (pack_cells_pos nb L s rest HL Hds).
      cbn [rows_after snd input_ids input_ids_list option_map].
      assert (Hrows : concat (tolist2 (reshaped L s rest))
                      = packed_data L (s :: rest))
        by (rewrite tolist2_reshaped; apply rows_concat, HL).
      exists (firstn (Z.to_nat (kept L (s :: rest))) (flat (s :: rest))),
             (skipn (Z.to_nat (kept L (s :: rest))) (flat (s :: rest))).
      split; [now apply pack_pos | split; [|split; [|split; [|split]]]].
      * symmetry. apply firstn_skipn.
      * rewrite length_skipn. unfold kept, ntokens in *. lia.
      * exact Hrows.
      * intros Hrange. rewrite Hrows. unfold packed_data.
        now apply map_cast_in_range.
      * reflexivity.
  - intros L' seqs'. now rewrite rows_after_pack_cells.
Qed.

Lemma trailing_remainder_dropped_witness :
  0 < 4 /\
  dataset_input_ids (fresh [[1; 2; 3]; [4; 5]; [6; 7; 8; 9; 10]])
  = [[1; 2; 3]; [4; 5]; [6; 7; 8; 9; 10]] /\
  match
    rows_after (pack_cells 4 (fresh [[1; 2; 3]; [4; 5]; [6; 7; 8; 9; 10]]))
  with
  | Ok rows =>
      exists head tail,
        pack 4 [[1; 2; 3]; [4; 5]; [6; 7; 8; 9; 10]] = Ok rows /\
        flat [[1; 2; 3]; [4; 5]; [6; 7; 8; 9; 10]] = head ++ tail /\
        Z.of_nat (length tail)
        = ntokens [[1; 2; 3]; [4; 5]; [6; 7; 8; 9; 10]] mod 4 /\
        concat rows
        = map (cast_int32 (input_dtype [[1; 2; 3]; [4; 5]; [6; 7; 8; 9; 10]]))
              head /\
        (Forall (fun z => in_int32 z = true) head -> concat rows = head) /\
        option_map nd_data
          (input_ids
             (snd (pack_cells 4
                     (fresh [[1; 2; 3]; [4; 5]; [6; 7; 8; 9; 10]]))))
        = Some head
  | Raise e => [[1; 2; 3]; [4; 5]; [6; 7; 8; 9; 10]] = [] /\ e = ValueError
  end.
Proof.
  split; [lia | split; [reflexivity|]].
  apply (trailing_remainder_dropped 4 [[1; 2; 3]; [4; 5]; [6; 7; 8; 9; 10]]
           (fresh [[1; 2; 3]; [4; 5]; [6; 7; 8; 9; 10]]));
    [lia | reflexivity].
Defined.

(** C5, as the contract words it, fails on a token id that does not fit 32
    bits: [[2147483648]] packed with [L = 1] has no trailing element to
    drop, yet its one element is in no row; the row holds [-2147483648]. *)
Lemma drops_only_the_tail_counterexample :
  0 < 1 /\ ~ drops_only_the_tail 1 [[2147483648]].
Proof.
  split; [lia|]. intros Hclaim.
  destruct (Hclaim [[-2147483648]] eq_refl)
    as (head & tail & Hflat & _ & Hrows).
  cbn in Hrows. subst head. cbn in Hflat. discriminate Hflat.
Qed.

(** C6, as the cells have it.  Two runs of the packing cells on the same
    data set with the same width end alike, whatever else the two notebooks
    hold: the same exception or the same rows, and the same lines printed.
    The cells read nothing but the data set and the width, they leave the
    data set as it was, and running them once more on the notebook they left
    gives the same rows again.  The output is not their only effect: a run
    with a positive width on a data set with a sequence in it prints four
    lines and binds [input_ids] to the truncated array, [max_seq_length] to
    the width and [total_length] to the number of tokens kept, each of them
    determined by the data set and the width alone.  Only a run on a data
    set with no sequence in it leaves the notebook as it found it: it raises
    [ValueError] at once. *)
Theorem pack_deterministic (L : Z) (nb1 nb2 : notebook) :
  dataset_input_ids nb1 = dataset_input_ids nb2 ->
  fst (pack_cells L nb1) = fst (pack_cells L nb2) /\
  rows_after (pack_cells L nb1) = rows_after (pack_cells L nb2) /\
  (exists lines,
     stdout (snd (pack_cells L nb1)) = stdout nb1 ++ lines /\
     stdout (snd (pack_cells L nb2)) = stdout nb2 ++ lines) /\
  dataset_input_ids (snd (pack_cells L nb1)) = dataset_input_ids nb1 /\
  rows_after (pack_cells L (snd (pack_cells L nb1)))
  = rows_after (pack_cells L nb1) /\
  (forall s rest,
     0 < L -> dataset_input_ids nb1 = s :: rest ->
     fst (pack_cells L nb1) = Ok tt /\
     input_ids (snd (pack_cells L nb1)) = Some (truncated L s rest) /\
     max_seq_length (snd (pack_cells L nb1)) = Some L /\
     total_length (snd (pack_cells L nb1)) = Some (kept L (s :: rest)) /\
     input_ids_reshaped (snd (pack_cells L nb1)) = Some (reshaped L s rest) /\
     stdout (snd (pack_cells L nb1))
     = stdout nb1 ++
       [ line_concatenated s rest;
         line_adjusted L s rest;
         ("Shape after truncation: " ++ str_shape (truncated L s rest))%string;
         ("Shape after reshaping: " ++ str_shape (reshaped L s rest))%string ]) /\
  (dataset_input_ids nb1 = [] -> pack_cells L nb1 = (Raise ValueError, nb1)).
Proof.
  intros Hsame.
  destruct (pack_cells_frame L nb1 nb2 Hsame) as [Hres Hout].
  split; [exact Hres|].
  split; [|split; [exact Hout | split; [|split; [|split]]]].
  - now rewrite !rows_after_pack_cells, Hsame.
  - apply dataset_after_pack_cells.
  - now rewrite !rows_after_pack_cells, dataset_after_pack_cells.
  - intros s rest HL Hds. rewrite (pack_cells_pos nb1 L s rest HL Hds).
    repeat split; reflexivity.
  - apply pack_cells_nil.
Qed.

Lemma pack_deterministic_witness :
  dataset_input_ids (fresh [[1; 2; 3]; [4; 5]])
  = dataset_input_ids (snd (pack_cells 2 (fresh [[1; 2; 3]; [4; 5]]))) /\
  rows_after (pack_cells 2 (fresh [[1; 2; 3]; [4; 5]]))
  = rows_after (pack_cells 2 (snd (pack_cells 2 (fresh [[1; 2; 3]; [4; 5]])))) /\
  stdout (snd (pack_cells 2 (fresh [[1; 2; 3]; [4; 5]])))
  = [ "Total number of concatenated tokens: 5"%string;
      "Adjusted total length: 4"%string;
      "Shape after truncation: (4,)"%string;
      "Shape after reshaping: (2, 2)"%string ].
Proof.
  split; [reflexivity|].
  destruct (pack_deterministic 2 (fresh [[1; 2; 3]; [4; 5]])
              (snd (pack_cells 2 (fresh [[1; 2; 3]; [4; 5]]))) eq_refl)
    as (_ & Hrows & _ & _ & _ & Heffects & _).
  split; [exact Hrows|].
  destruct (Heffects [1; 2; 3] [[4; 5]] ltac:(lia) eq_refl)
    as (_ & _ & _ & _ & _ & Hout).
  exact Hout.
Defined.

(** C6, as the contract words it, fails: a run on
    [[1,2,3],[4,5],[6,7,8,9,10]] with [L = 4] from a fresh kernel prints
    four lines and binds [input_ids], [max_seq_length] and [total_length],
    so the output is not its only effect. *)
Lemma no_effect_besides_output_counterexample :
  0 < 4 /\
  ~ no_effect_besides_output 4 (fresh [[1; 2; 3]; [4; 5]; [6; 7; 8; 9; 10]]).
Proof.
  split; [lia|]. intros (_ & Hids & _).
  vm_compute in Hids. discriminate Hids.
Qed.

Lemma packed_data_in_int32 (L : Z) (s : list Z) (rest : list (list Z)) :
  Forall (fun z => in_int32 z = true) (packed_data L (s :: rest)).
Proof.
  unfold packed_data. apply Forall_map, Forall_forall. intros z _.
  apply cast_int32_range, concat_dtype_not_int32.
Qed.




End PackingContract.

(** ** What the bootstrap cells compute *)

Module SetupFacts.
Import Py Setup.
Local Open Scope stmt_scope.
Local Open Scope string_scope.

(** A sequence that ends well ran both of its parts well. *)
Lemma bind_ok_inv {S A B} (m : stmt S A) (k : A -> stmt S B)
    (st st' : S) (b : B) :
  bind m k st = (Ok b, st') ->
  exists a st1, m st = (Ok a, st1) /\ k a st1 = (Ok b, st').
Proof.
  unfold bind. destruct (m st) as [[a | e] st1]; intros Hk.
  - now exists a, st1.
  - discriminate Hk.
Qed.

Lemma ret_ok_inv {S A} (a b : A) (st st' : S) :
  ret a st = (Ok b, st') -> a = b /\ st = st'.
Proof. unfold ret. intros E. now inversion E. Qed.

(** The bootstrap on the two sample machines. *)

Example colab_run :
  fst (setup_environment "pretraining-llms" "Colab Notebooks" true true colab)
  = Ok ("/content/drive/MyDrive/Colab Notebooks/pretraining-llms", true).
Proof. reflexivity. Qed.

Example laptop_remote_run :
  fst (setup_environment "pretraining-llms" "Colab Notebooks" true true laptop)
  = Raise ImportError.
Proof. reflexivity. Qed.

Example laptop_other_folder :
  fst (setup_environment "LangChain" "Colab Notebooks" false false laptop)
  = Raise AssertionError.
Proof. reflexivity. Qed.

Section OnAnyPlatform.
Context {W : Type} `{Platform W}.

Lemma sys_ok_inv {A} (f : W -> result A * W) (st st' : machine W) (a : A) :
  sys f st = (Ok a, st') ->
  f (world st) = (Ok a, world st') /\ stdout st' = stdout st.
Proof.
  unfold sys. destruct (f (world st)) as [r w]. intros E.
  inversion E; subst. split; reflexivity.
Qed.

Lemma ask_ok_inv {A} (f : W -> A) (st st' : machine W) (a : A) :
  ask f st = (Ok a, st') -> a = f (world st) /\ st' = st.
Proof. unfold ask. intros E. inversion E. split; reflexivity. Qed.

Lemma print_ok_inv (line : string) (st st' : machine W) (u : unit) :
  print line st = (Ok u, st') ->
  world st' = world st /\ stdout st' = (stdout st ++ [line])%list.
Proof. unfold print. intros E. inversion E. split; reflexivity. Qed.

Lemma assert_ok_inv (b : bool) (st st' : machine W) (u : unit) :
  assert_ b st = (Ok u, st') -> b = true /\ st' = st.
Proof.
  unfold assert_. destruct b; unfold ret, raise; intros E.
  - inversion E. split; reflexivity.
  - discriminate E.
Qed.

(** The value a call returns is the one its first part located. *)
Lemma setup_environment_located
    (folder base : string) (run_remote use_gpu : bool)
    (st st' : machine W) (path : string) (m : bool) :
  setup_environment folder base run_remote use_gpu st = (Ok (path, m), st') ->
  if run_remote then
    exists w1 w2,
      import_google_colab (world st) = (Ok tt, w1) /\
      drive_mount "/content/drive" w1 = (Ok tt, w2) /\
      m = os_path_ismount "/content/drive" w2 /\
      path = os_path_join "/content/drive/MyDrive" [base; folder]
  else
    m = false /\
    fst (os_getcwd (world st)) = Ok path /\
    (os_path_basename path =? folder) = true.
Proof.
  unfold setup_environment. intros Hrun.
  apply bind_ok_inv in Hrun. destruct Hrun as (located & st1 & Hloc & Hrest).
  apply bind_ok_inv in Hrest. destruct Hrest as (u & st2 & _ & Hret).
  apply ret_ok_inv in Hret. destruct Hret as [-> _].
  destruct run_remote.
  - apply bind_ok_inv in Hloc. destruct Hloc as ([] & sa & Himp & Hloc).
    apply bind_ok_inv in Hloc. destruct Hloc as ([] & sb & Hmnt & Hloc).
    apply bind_ok_inv in Hloc. destruct Hloc as (mounted & sc & Hask & Hloc).
    apply bind_ok_inv in Hloc. destruct Hloc as (ms & sd & Hms & Hloc).
    apply bind_ok_inv in Hloc. destruct Hloc as (present & se & _ & Hloc).
    apply bind_ok_inv in Hloc. destruct Hloc as (? & sf & _ & Hloc).
    apply bind_ok_inv in Hloc. destruct Hloc as (? & sg & _ & Hloc).
    apply bind_ok_inv in Hloc. destruct Hloc as (cwd' & sh & _ & Hloc).
    apply bind_ok_inv in Hloc. destruct Hloc as (? & si & _ & Hloc).
    apply ret_ok_inv in Hloc. destruct Hloc as [Hpair _].
    inversion Hpair; subst path m.
    apply sys_ok_inv in Himp, Hmnt. destruct Himp as [Himp _], Hmnt as [Hmnt _].
    apply ask_ok_inv in Hask. destruct Hask as [-> ->].
    exists (world sa), (world sb). repeat split; try assumption.
    destruct (os_path_ismount "/content/drive" (world sb)).
    + apply bind_ok_inv in Hms. destruct Hms as (? & ? & _ & Hms).
      apply ret_ok_inv in Hms. now destruct Hms.
    + apply bind_ok_inv in Hms. destruct Hms as (? & ? & _ & Hms).
      apply ret_ok_inv in Hms. now destruct Hms.
  - apply bind_ok_inv in Hloc. destruct Hloc as (p & sa & Hcwd & Hloc).
    apply bind_ok_inv in Hloc. destruct Hloc as (? & sb & Hassert & Hloc).
    apply bind_ok_inv in Hloc. destruct Hloc as (? & sc & _ & Hloc).
    apply ret_ok_inv in Hloc. destruct Hloc as [Hpair _].
    inversion Hpair; subst p m.
    apply sys_ok_inv in Hcwd. destruct Hcwd as [Hcwd _].
    apply assert_ok_inv in Hassert. destruct Hassert as [Hbase _].
    rewrite Hcwd. repeat split. exact Hbase.
Qed.

(** A local run in the project folder returns, unless the GPU probe fails
    with something other than [SubprocessError]. *)
Lemma setup_environment_local_returns
    (folder base : string) (use_gpu : bool) (st : machine W)
    (cwd : string) (w : W) :
  os_getcwd (world st) = (Ok cwd, w) ->
  (os_path_basename cwd =? folder) = true ->
  (use_gpu = true ->
   forall e w', check_output_decode "nvidia-smi" w = (Raise e, w') ->
                e = SubprocessError) ->
  fst (setup_environment folder base false use_gpu st) = Ok (cwd, false).
Proof.
  intros Hcwd Hbase Hgpu.
  unfold setup_environment, bind, sys, assert_, print, ret, try_except.
  rewrite Hcwd, Hbase.
  destruct use_gpu; cbn [world stdout]; [|reflexivity].
  destruct (check_output_decode "nvidia-smi" w) as [[text | e] w'] eqn:Hsmi;
    cbn [world stdout]; [reflexivity|].
  rewrite (Hgpu eq_refl e w' eq_refl).
  destruct (exn_eq_dec SubprocessError SubprocessError); [reflexivity|].
  congruence.
Qed.

(** C9.  A call of [setup_environment] with [run_remote = False] that
    returns, returns [mount_success = False], whatever the other arguments
    and the machine; and it does return, with the working directory as the
    path, when that directory is the project folder and the GPU probe is
    skipped or fails at most with [SubprocessError].  A call that returns
    [mount_success = True] was a remote one on which the Colab import and
    [drive.mount] went through and [/content/drive] is a mount point. *)
Theorem local_run_mount_success_false
    (folder base : string) (use_gpu : bool) (st : machine W) :
  (forall path m st',
     setup_environment folder base false use_gpu st = (Ok (path, m), st') ->
     m = false) /\
  (forall cwd w,
     os_getcwd (world st) = (Ok cwd, w) ->
     (os_path_basename cwd =? folder) = true ->
     (use_gpu = true ->
      forall e w', check_output_decode "nvidia-smi" w = (Raise e, w') ->
                   e = SubprocessError) ->
     fst (setup_environment folder base false use_gpu st) = Ok (cwd, false)) /\
  (forall run_remote path st',
     setup_environment folder base run_remote use_gpu st
     = (Ok (path, true), st') ->
     run_remote = true /\
     exists w1 w2,
       import_google_colab (world st) = (Ok tt, w1) /\
       drive_mount "/content/drive" w1 = (Ok tt, w2) /\
       os_path_ismount "/content/drive" w2 = true).
Proof.
  split; [|split].
  - intros path m st' Hrun.
    apply setup_environment_located in Hrun. now destruct Hrun.
  - intros cwd w. apply setup_environment_local_returns.
  - intros run_remote path st' Hrun.
    apply setup_environment_located in Hrun. destruct run_remote.
    + destruct Hrun as (w1 & w2 & Himp & Hmnt & Hm & _).
      split; [reflexivity|]. now exists w1, w2.
    + destruct Hrun as [Hm _]. discriminate Hm.
Qed.

End OnAnyPlatform.

Lemma local_run_mount_success_false_witness :
  setup_environment "pretraining-llms" "Colab Notebooks" false true laptop
  = (Ok ("/home/user/pretraining-llms", false),
     mk_machine (world laptop)
       [ "Running code in path /home/user/pretraining-llms";
         "GPU check failed (nvidia-smi not found or no GPU available). Falling back to CPU." ]) /\
  false = false.
Proof.
  assert (Hrun :
    setup_environment "pretraining-llms" "Colab Notebooks" false true laptop
    = (Ok ("/home/user/pretraining-llms", false),
       mk_machine (world laptop)
         [ "Running code in path /home/user/pretraining-llms";
           "GPU check failed (nvidia-smi not found or no GPU available). Falling back to CPU." ]))
    by reflexivity.
  split; [exact Hrun|].
  exact (proj1 (local_run_mount_success_false
                  "pretraining-llms" "Colab Notebooks" true laptop)
               _ _ _ Hrun).
Defined.

(** C10.  After the run-mode selection cell [run_local] is [False] for both
    values of [run_remote], and [run_local_usingColab] is [not run_remote].
    The notebook's list of scenarios names the setting [run_remote = False],
    [run_local = True], [run_local_usingColab = False]; the cell reaches it
    for no value of [run_remote]. *)
Theorem run_local_always_false :
  (forall run_remote,
     run_local (run_mode_cell run_remote) = false /\
     run_local_usingColab (run_mode_cell run_remote) = negb run_remote) /\
  In (false, true, false) documented_scenarios /\
  (forall run_remote, scenario_after run_remote <> (false, true, false)).
Proof.
  split; [|split].
  - intros [|]; split; reflexivity.
  - right; left; reflexivity.
  - intros [|]; discriminate.
Qed.

End SetupFacts.

(** ** More on the packing cells: edges, re-runs and composition *)

Module PackingMore.
Import Py Numpy Lesson3 NumpyFacts PackingFacts PackingContract.
Local Open Scope stmt_scope.

Lemma rows_of_app (r1 r c : nat) (l : list Z) :
  rows_of (r1 + r) c l
  = rows_of r1 c l ++ rows_of r c (skipn (r1 * c) l).
Proof.
  revert l; induction r1 as [|r1 IH]; intros l; simpl; [reflexivity|].
  rewrite IH, skipn_skipn.
  now replace (r1 * c + c)%nat with (c + r1 * c)%nat by lia.
Qed.

(** The first [r] rows read the first [r * c] cells and nothing else. *)
Lemma rows_of_ext (r c : nat) (l l' : list Z) :
  firstn (r * c) l = firstn (r * c) l' -> rows_of r c l = rows_of r c l'.
Proof.
  revert l l'; induction r as [|r IH]; intros l l' Heq; simpl; [reflexivity|].
  simpl in Heq. f_equal.
  - apply (f_equal (firstn c)) in Heq.
    rewrite !firstn_firstn in Heq.
    now rewrite Nat.min_l in Heq by lia.
  - apply IH. rewrite !firstn_skipn_comm.
    now rewrite Heq.
Qed.

Lemma rows_of_nil_iff (r c : nat) (l : list Z) :
  rows_of r c l = [] <-> r = O.
Proof. destruct r; simpl; split; congruence. Qed.

Lemma nonempty_flat (seqs : list (list Z)) :
  Forall (fun s => s <> []) seqs -> flat seqs = [] -> seqs = [].
Proof.
  unfold flat. intros Hne Hflat. destruct Hne as [|s seqs Hs _]; [reflexivity|].
  simpl in Hflat. apply app_eq_nil in Hflat. destruct Hflat. congruence.
Qed.

Lemma input_dtype_int64 (seqs : list (list Z)) :
  seqs <> [] -> Forall (fun s => s <> []) seqs -> input_dtype seqs = Int64.
Proof.
  destruct seqs as [|s rest]; [congruence|]. intros _.
  apply concat_dtype_int64.
Qed.

(** The rows for a positive width, whatever the collection. *)
Lemma pack_pos_rows (L : Z) (seqs : list (list Z)) :
  0 < L -> seqs <> [] ->
  pack L seqs
  = Ok (rows_of (Z.to_nat (ntokens seqs / L)) (Z.to_nat L) (packed_data L seqs)).
Proof.
  intros HL Hne. destruct seqs as [|s rest]; [congruence|].
  now rewrite pack_pos, tolist2_reshaped.
Qed.



(** X2.  Packing forgets where one record ends and the next begins: two
    collections of non-empty sequences with the same concatenation pack
    alike, for every width, failures included. *)
Theorem record_boundaries_forgotten
    (L : Z) (seqs1 seqs2 : list (list Z)) :
  Forall (fun s => s <> []) seqs1 -> Forall (fun s => s <> []) seqs2 ->
  flat seqs1 = flat seqs2 ->
  pack L seqs1 = pack L seqs2.
Proof.
  intros Hne1 Hne2 Hflat.
  destruct seqs1 as [|s1 rest1], seqs2 as [|s2 rest2].
  - reflexivity.
  - symmetry in Hflat. apply nonempty_flat in Hflat; [discriminate | exact Hne2].
  - apply nonempty_flat in Hflat; [discriminate | exact Hne1].
  - destruct (Z.lt_trichotomy L 0) as [HL | [HL | HL]].
    + now rewrite !pack_neg.
    + subst L. now rewrite !pack_zero.
    + rewrite !pack_pos_rows by (assumption || discriminate).
      unfold packed_data, kept, ntokens.
      rewrite !input_dtype_int64 by (assumption || discriminate).
      now rewrite Hflat.
Qed.

Lemma record_boundaries_forgotten_witness :
  Forall (fun s => s <> []) [[1; 2]; [3]] /\
  Forall (fun s => s <> []) [[1]; [2; 3]] /\
  flat [[1; 2]; [3]] = flat [[1]; [2; 3]] /\
  pack 2 [[1; 2]; [3]] = pack 2 [[1]; [2; 3]].
Proof.
  assert (H1 : Forall (fun s : list Z => s <> []) [[1; 2]; [3]])
    by (repeat constructor; discriminate).
  assert (H2 : Forall (fun s : list Z => s <> []) [[1]; [2; 3]])
    by (repeat constructor; discriminate).
  split; [exact H1 | split; [exact H2 | split; [reflexivity|]]].
  exact (record_boundaries_forgotten 2 _ _ H1 H2 eq_refl).
Defined.

Lemma rows_nonempty (L : Z) (rows : list (list Z)) :
  0 < L -> Forall (fun row => Z.of_nat (length row) = L) rows ->
  Forall (fun s => s <> []) rows.
Proof.
  intros HL Hw. eapply Forall_impl; [|exact Hw].
  cbn beta. intros row Hrow ->. simpl in Hrow. lia.
Qed.

(** X3.  The packer leaves its own output alone: packing the rows it
    produced once more with the same width gives the same rows.  The one
    exception is an output of no rows, which [np.concatenate] refuses. *)
Theorem pack_own_output (L : Z) (seqs rows : list (list Z)) :
  pack L seqs = Ok rows ->
  pack L rows = match rows with
                | [] => Raise ValueError
                | _ :: _ => Ok rows
                end.
Proof.
  intros Hrows.
  destruct (pack_ok_inv L seqs rows Hrows) as (HL & Hne & Heq).
  destruct rows as [|row rows']; [apply pack_nil|].
  set (r := Z.to_nat (ntokens seqs / L)) in *.
  set (c := Z.to_nat L) in *.
  assert (Hdiv : 0 <= ntokens seqs / L)
    by (apply Z.div_pos; [apply ntokens_nonneg | exact HL]).
  assert (Hflat : flat (row :: rows') = packed_data L seqs).
  { rewrite Heq. unfold flat. apply rows_concat, HL. }
  assert (Hn : ntokens (row :: rows') = ntokens seqs / L * L).
  { unfold ntokens at 1. rewrite Hflat. apply packed_data_count, HL. }
  assert (Hkept : kept L (row :: rows') = ntokens (row :: rows')).
  { unfold kept. rewrite Hn, Z.mod_mul by lia. lia. }
  assert (Hdt : input_dtype (row :: rows') = Int64).
  { apply input_dtype_int64; [discriminate|].
    apply (rows_nonempty L); [exact HL|].
    rewrite Heq. apply rows_width, HL. }
  assert (Hdata : packed_data L (row :: rows') = packed_data L seqs).
  { unfold packed_data at 1. rewrite Hdt, Hkept. unfold ntokens.
    rewrite Nat2Z.id, firstn_all, Hflat.
    apply (map_cast_in_range Int64).
    destruct seqs as [|s rest]; [congruence|].
    apply packed_data_in_int32. }
  rewrite pack_pos_rows by (exact HL || discriminate).
  rewrite Hdata, Hn, Z.div_mul by lia.
  now rewrite Heq.
Qed.

Lemma pack_own_output_witness :
  pack 2 [[1; 2; 3]; [4; 5]] = Ok [[1; 2]; [3; 4]] /\
  pack 2 [[1; 2]; [3; 4]] = Ok [[1; 2]; [3; 4]].
Proof.
  assert (Hrows : pack 2 [[1; 2; 3]; [4; 5]] = Ok [[1; 2]; [3; 4]])
    by reflexivity.
  split; [exact Hrows|].
  exact (pack_own_output 2 _ _ Hrows).
Defined.

(** X4.  Rows that are complete stay as they are when more data arrives:
    with token ids that fit 32 bits, appending a sequence to the collection
    keeps every row the packer produced before and only adds rows after
    them. *)
Theorem appending_keeps_rows
    (L : Z) (seqs : list (list Z)) (s : list Z) :
  0 < L -> seqs <> [] ->
  Forall (fun z => in_int32 z = true) (flat (seqs ++ [s])) ->
  exists rows more,
    pack L seqs = Ok rows /\ pack L (seqs ++ [s]) = Ok (rows ++ more).
Proof.
  intros HL Hne Hrange.
  assert (Hflat : flat (seqs ++ [s]) = flat seqs ++ s).
  { unfold flat. rewrite concat_app. simpl. now rewrite app_nil_r. }
  rewrite Hflat in Hrange. apply Forall_app in Hrange.
  destruct Hrange as [Hr1 Hr2].
  assert (Hne' : seqs ++ [s] <> []) by (destruct seqs; discriminate).
  assert (Hn : ntokens (seqs ++ [s]) = ntokens seqs + Z.of_nat (length s)).
  { unfold ntokens. rewrite Hflat, length_app. lia. }
  pose proof (ntokens_nonneg seqs) as Hn0.
  assert (Hle : ntokens seqs / L <= ntokens (seqs ++ [s]) / L)
    by (apply Z.div_le_mono; lia).
  assert (Hd0 : 0 <= ntokens seqs / L) by (apply Z.div_pos; lia).
  destruct (kept_pos L seqs HL) as (Hk1 & Ek1 & _ & _).
  destruct (kept_pos L (seqs ++ [s]) HL) as (Hk2 & Ek2 & _ & _).
  set (r1 := Z.to_nat (ntokens seqs / L)).
  set (c := Z.to_nat L).
  assert (Hr : Z.to_nat (ntokens (seqs ++ [s]) / L)
               = (r1 + (Z.to_nat (ntokens (seqs ++ [s]) / L) - r1))%nat)
    by (subst r1; lia).
  assert (Hd1 : packed_data L seqs = firstn (Z.to_nat (kept L seqs)) (flat seqs)).
  { unfold packed_data. apply map_cast_in_range, Forall_firstn, Hr1. }
  assert (Hd2 : packed_data L (seqs ++ [s])
                = firstn (Z.to_nat (kept L (seqs ++ [s]))) (flat seqs ++ s)).
  { unfold packed_data. rewrite Hflat.
    apply map_cast_in_range, Forall_firstn, Forall_app. now split. }
  exists (rows_of r1 c (packed_data L seqs)),
         (rows_of (Z.to_nat (ntokens (seqs ++ [s]) / L) - r1) c
                  (skipn (r1 * c) (packed_data L (seqs ++ [s])))).
  split; [now apply pack_pos_rows|].
  rewrite pack_pos_rows by assumption.
  fold c. rewrite Hr at 1. rewrite rows_of_app. do 2 f_equal.
  apply rows_of_ext. rewrite Hd1, Hd2, !firstn_firstn.
  assert (Ec : (r1 * c)%nat = Z.to_nat (kept L seqs)).
  { subst r1 c. rewrite Ek1, Z2Nat.inj_mul by lia. reflexivity. }
  rewrite Ec, Nat.min_id.
  rewrite Nat.min_l by (rewrite Ek1, Ek2; apply Z2Nat.inj_le; nia).
  rewrite firstn_app.
  replace (Z.to_nat (kept L seqs) - length (flat seqs))%nat with 0%nat
    by (unfold ntokens in Hk1; lia).
  now rewrite firstn_O, app_nil_r.
Qed.

Lemma appending_keeps_rows_witness :
  0 < 2 /\ [[1; 2; 3]] <> [] /\
  Forall (fun z => in_int32 z = true) (flat ([[1; 2; 3]] ++ [[4; 5]])) /\
  exists rows more,
    pack 2 [[1; 2; 3]] = Ok rows /\
    pack 2 ([[1; 2; 3]] ++ [[4; 5]]) = Ok (rows ++ more).
Proof.
  assert (Hrange : Forall (fun z => in_int32 z = true)
                          (flat ([[1; 2; 3]] ++ [[4; 5]])))
    by (repeat constructor).
  split; [lia | split; [discriminate | split; [exact Hrange|]]].
  apply (appending_keeps_rows 2 [[1; 2; 3]] [4; 5]);
    [lia | discriminate | exact Hrange].
Defined.

Lemma slice_truncated (L : Z) (s : list Z) (rest : list (list Z)) :
  0 < L ->
  slice_to (truncated L s rest) (kept L (s :: rest)) = truncated L s rest.
Proof.
  intros HL. destruct (kept_pos L (s :: rest) HL) as (Ht & _ & _ & _).
  unfold truncated at 1, slice_to, Py.slice_to; cbn [nd_data nd_dtype].
  assert (Hlen : Z.of_nat (length (firstn (Z.to_nat (kept L (s :: rest)))
                                          (flat (s :: rest))))
                 = kept L (s :: rest)).
  { rewrite length_firstn. unfold ntokens in Ht. lia. }
  destruct (kept L (s :: rest) <? 0) eqn:E; [apply Z.ltb_lt in E; lia|].
  rewrite Hlen, Z.min_id, firstn_firstn, Nat.min_id, Hlen. reflexivity.
Qed.

(** X5.  Cell 4.2 can be run again on its own.  After a successful run of
    the packing cells with a positive width, running cell 4.2 once more
    (without cell 4.1) raises nothing and changes none of the names:
    [input_ids], [max_seq_length], [total_length], [input_ids_reshaped] and
    [input_ids_list] stay what they were, and the three lines of cell 4.2
    are printed again. *)
Theorem rerun_cell_4_2
    (L : Z) (s : list Z) (rest : list (list Z)) (nb : notebook) :
  0 < L -> dataset_input_ids nb = s :: rest ->
  cell_4_2 (snd (pack_cells L nb))
  = (Ok tt,
     mk_notebook
       (dataset_input_ids (snd (pack_cells L nb)))
       (input_ids (snd (pack_cells L nb)))
       (max_seq_length (snd (pack_cells L nb)))
       (total_length (snd (pack_cells L nb)))
       (input_ids_reshaped (snd (pack_cells L nb)))
       (input_ids_list (snd (pack_cells L nb)))
       (stdout (snd (pack_cells L nb))
          ++ [ line_adjusted L s rest;
               ("Shape after truncation: "
                  ++ str_shape (truncated L s rest))%string;
               ("Shape after reshaping: "
                  ++ str_shape (reshaped L s rest))%string ])).
Proof.
  intros HL Hds.
  destruct (kept_pos L (s :: rest) HL) as (Ht & _ & Hmod & Hdiv).
  rewrite (pack_cells_pos nb L s rest HL Hds).
  cbn [snd dataset_input_ids input_ids max_seq_length total_length
       input_ids_reshaped input_ids_list stdout].
  run_stmt.
  change (len (truncated L s rest)) with (kept L (s :: rest)).
  unfold mod_. destruct (L =? 0) eqn:E0; [apply Z.eqb_eq in E0; lia|].
  run_stmt. rewrite Hmod, Z.sub_0_r, (slice_truncated L s rest HL).
  assert (Hsz : size (truncated L s rest) = kept L (s :: rest)).
  { unfold size, truncated; cbn [nd_data]. rewrite length_firstn.
    unfold ntokens in Ht. lia. }
  unfold reshape_m1. rewrite Hsz.
  destruct (L <? 0) eqn:E1; [apply Z.ltb_lt in E1; lia|].
  rewrite Hmod, E0. cbn [Z.eqb negb orb]. rewrite Hdiv.
  run_stmt.
  change (astype_int32 _) with (reshaped L s rest).
  unfold line_adjusted. rewrite <- !app_assoc. reflexivity.
Qed.

Lemma rerun_cell_4_2_witness :
  0 < 2 /\ dataset_input_ids (fresh [[1; 2; 3]]) = [1; 2; 3] :: [] /\
  input_ids_reshaped (snd (cell_4_2 (snd (pack_cells 2 (fresh [[1; 2; 3]])))))
  = input_ids_reshaped (snd (pack_cells 2 (fresh [[1; 2; 3]]))) /\
  stdout (snd (cell_4_2 (snd (pack_cells 2 (fresh [[1; 2; 3]])))))
  = [ "Total number of concatenated tokens: 3"%string;
      "Adjusted total length: 2"%string;
      "Shape after truncation: (2,)"%string;
      "Shape after reshaping: (1, 2)"%string;
      "Adjusted total length: 2"%string;
      "Shape after truncation: (2,)"%string;
      "Shape after reshaping: (1, 2)"%string ].
Proof.
  split; [lia | split; [reflexivity|]].
  rewrite (rerun_cell_4_2 2 [1; 2; 3] [] (fresh [[1; 2; 3]])
             ltac:(lia) eq_refl).
  split; reflexivity.
Defined.

(** X6.  Run in a kernel where cell 4.1 has not run, cell 4.2 raises
    [NameError] and leaves the notebook untouched; and it raises [NameError]
    in no other case: exactly when [input_ids] or [max_seq_length] is not
    assigned.  The only other exceptions of the cell are
    [ZeroDivisionError] and [ValueError]. *)
Theorem cell_4_2_name_error (nb : notebook) :
  (fst (cell_4_2 nb) = Raise NameError
   <-> input_ids nb = None \/ max_seq_length nb = None) /\
  (fst (cell_4_2 nb) = Raise NameError -> snd (cell_4_2 nb) = nb) /\
  (forall e, fst (cell_4_2 nb) = Raise e ->
             e = NameError \/ e = ZeroDivisionError \/ e = ValueError).
Proof.
  unfold cell_4_2, bind, ret, call, read, set_input_ids, set_total_length,
    set_input_ids_reshaped, print.
  destruct (input_ids nb) as [a|] eqn:Ha; cbn.
  2:{ split; [split; auto | split; [reflexivity|]].
      intros e E. inversion E. auto. }
  rewrite Ha. cbn.
  destruct (max_seq_length nb) as [L|] eqn:HL; cbn.
  2:{ split; [split; auto | split; [reflexivity|]].
      intros e E. inversion E. auto. }
  rewrite Ha, HL.
  destruct (mod_ (len a) L) as [m | e] eqn:Hm; cbn.
  - destruct (reshape_m1 _ L) as [r | e] eqn:Hr; cbn.
    + split; [split; [discriminate | intros [H | H]; discriminate] |
              split; [discriminate | intros e E; discriminate E]].
    + assert (e = ValueError).
      { unfold reshape_m1 in Hr.
        destruct (L <? 0); [congruence|].
        destruct ((L =? 0) || _); congruence. }
      subst e.
      split; [split; [discriminate | intros [H | H]; discriminate] |
              split; [discriminate | intros e E; inversion E; auto]].
  - assert (e = ZeroDivisionError).
    { unfold mod_ in Hm. destruct (L =? 0); congruence. }
    subst e.
    split; [split; [discriminate | intros [H | H]; discriminate] |
            split; [discriminate | intros e E; inversion E; auto]].
Qed.

End PackingMore.

(** ** More on [setup_environment]: failures, the GPU probe, remote runs *)

Module SetupMore.
Import Py Setup SetupParts SetupFacts.
Local Open Scope stmt_scope.
Local Open Scope string_scope.

Section OnAnyPlatform.
Context {W : Type} `{Platform W}.

Lemma setup_environment_halves
    (folder base : string) (run_remote use_gpu : bool) :
  setup_environment folder base run_remote use_gpu
  = (located <- locate folder base run_remote ;;
     gpu_probe use_gpu ;;
     ret located).
Proof. reflexivity. Qed.

(** X7.  A local run checks the name of the working directory before it
    does anything that shows: when the directory is not called as the
    project folder, the call raises [AssertionError] with nothing printed
    and without running the GPU probe. *)
Theorem local_run_wrong_folder
    (folder base : string) (use_gpu : bool) (st : machine W)
    (cwd : string) (w : W) :
  os_getcwd (world st) = (Ok cwd, w) ->
  (os_path_basename cwd =? folder) = false ->
  setup_environment folder base false use_gpu st
  = (Raise AssertionError, mk_machine w (stdout st)).
Proof.
  intros Hcwd Hbase.
  unfold setup_environment, bind, sys, assert_, raise.
  now rewrite Hcwd, Hbase.
Qed.

(** X8.  The GPU probe never changes what the call returns.  If the call
    returns a value with [use_gpu = False], then with [use_gpu = True] it
    returns the same value both when [nvidia-smi] runs and when it fails
    with [SubprocessError]; the fallback to the CPU shows only as a printed
    line.  Any other exception of the probe is passed on. *)
Theorem gpu_probe_keeps_result
    (folder base : string) (run_remote : bool) (st st_cpu : machine W)
    (v : string * bool) :
  setup_environment folder base run_remote false st = (Ok v, st_cpu) ->
  exists pre,
    stdout st_cpu
    = (pre ++ ["******use_gpu is set to False. Using CPU******"])%list /\
    forall out w',
      check_output_decode "nvidia-smi" (world st_cpu) = (out, w') ->
      setup_environment folder base run_remote true st
      = match out with
        | Ok gpu_info =>
            (Ok v,
             mk_machine w'
               (pre ++ ["******GPU is available and will be used:**********";
                        gpu_info])%list)
        | Raise e =>
            if exn_eq_dec e SubprocessError
            then (Ok v,
                  mk_machine w'
                    (pre ++ ["GPU check failed (nvidia-smi not found or no GPU available). Falling back to CPU."])%list)
            else (Raise e, mk_machine w' pre)
        end.
Proof.
  rewrite !setup_environment_halves. unfold bind at 1 3.
  destruct (locate folder base run_remote st) as [[v' | e] st1];
    [|discriminate].
  unfold gpu_probe, bind, print, ret, try_except, sys. cbn [world stdout].
  intros Hcpu. inversion Hcpu; subst v' st_cpu. clear Hcpu.
  exists (stdout st1). split; [reflexivity|].
  cbn [world]. intros out w' Hsmi. rewrite Hsmi.
  destruct out as [gpu_info | e]; cbn [world stdout].
  - now rewrite <- app_assoc.
  - destruct (exn_eq_dec e SubprocessError); reflexivity.
Qed.

(** X9.  A remote run goes on when the drive did not mount.  Suppose the
    Colab import and [drive.mount] raise nothing, [os.makedirs] raises
    nothing when the project folder does not exist (it is not called when
    the folder exists), and [os.chdir] and [os.getcwd] raise nothing.  Then,
    for either value of [use_gpu], the call prints the mount line and the
    working directory and goes on to the GPU probe; it returns the project
    path under [/content/drive/MyDrive] and, as [mount_success], what
    [os.path.ismount] answers, true or false.  The one way left for it not
    to return is [use_gpu = True] with [nvidia-smi] raising something other
    than [SubprocessError], which is passed on. *)
Theorem remote_run_returns
    (folder base : string) (use_gpu : bool) (st : machine W)
    (w1 w2 w3 w4 w5 : W) (cwd : string) :
  import_google_colab (world st) = (Ok tt, w1) ->
  drive_mount "/content/drive" w1 = (Ok tt, w2) ->
  (if os_path_exists
        (os_path_join "/content/drive/MyDrive" [base; folder]) w2
   then w3 = w2
   else os_makedirs
          (os_path_join "/content/drive/MyDrive" [base; folder]) w2
        = (Ok tt, w3)) ->
  os_chdir (os_path_join "/content/drive/MyDrive" [base; folder]) w3
  = (Ok tt, w4) ->
  os_getcwd w4 = (Ok cwd, w5) ->
  forall located printed,
    located = (os_path_join "/content/drive/MyDrive" [base; folder],
               os_path_ismount "/content/drive" w2) ->
    printed = (stdout st
                 ++ [ if os_path_ismount "/content/drive" w2
                      then "Google Drive mounted successfully!"
                      else "Drive mount failed.";
                      ("Running code in path " ++ cwd)%string ])%list ->
    setup_environment folder base true use_gpu st
    = if use_gpu then
        match check_output_decode "nvidia-smi" w5 with
        | (Ok gpu_info, w6) =>
            (Ok located,
             mk_machine w6
               (printed
                  ++ [ "******GPU is available and will be used:**********";
                       gpu_info ])%list)
        | (Raise e, w6) =>
            if exn_eq_dec e SubprocessError
            then (Ok located,
                  mk_machine w6
                    (printed ++ ["GPU check failed (nvidia-smi not found or no GPU available). Falling back to CPU."])%list)
            else (Raise e, mk_machine w6 printed)
        end
      else
        (Ok located,
         mk_machine w5
           (printed
              ++ ["******use_gpu is set to False. Using CPU******"])%list).
Proof.
  intros Himp Hmnt Hdir Hcd Hcwd located printed -> ->.
  assert (Hloc :
    locate folder base true st
    = (Ok (os_path_join "/content/drive/MyDrive" [base; folder],
           os_path_ismount "/content/drive" w2),
       mk_machine w5
         (stdout st
            ++ [ if os_path_ismount "/content/drive" w2
                 then "Google Drive mounted successfully!"
                 else "Drive mount failed.";
                 ("Running code in path " ++ cwd)%string ])%list)).
  { unfold locate, bind, sys, ask, print, ret.
    rewrite Himp. cbn [world stdout]. rewrite Hmnt. cbn [world stdout].
    destruct (os_path_ismount "/content/drive" w2); cbn [world stdout];
      destruct (os_path_exists _ w2); cbn [negb world stdout];
      try subst w3; try rewrite Hdir; cbn [world stdout];
      rewrite Hcd; cbn [world stdout]; rewrite Hcwd; cbn [world stdout];
      now rewrite <- !app_assoc. }
  rewrite setup_environment_halves. unfold bind at 1. rewrite Hloc.
  unfold gpu_probe, bind, print, ret, try_except, sys. cbn [world stdout].
  destruct use_gpu; cbn [world stdout]; [|reflexivity].
  destruct (check_output_decode "nvidia-smi" w5) as [[gpu_info | e] w6];
    cbn [world stdout].
  - now rewrite <- !app_assoc.
  - destruct (exn_eq_dec e SubprocessError); reflexivity.
Qed.

End OnAnyPlatform.

(** A Colab runtime whose drive does not mount. *)
Example colab_without_drive :
  fst (setup_environment "pretraining-llms" "Colab Notebooks" true false
         (mk_machine (mk_posix "/content" ["/content"] [] true false None) []))
  = Ok ("/content/drive/MyDrive/Colab Notebooks/pretraining-llms", false).
Proof. reflexivity. Qed.

Lemma local_run_wrong_folder_witness :
  os_getcwd (world laptop) = (Ok "/home/user/pretraining-llms", world laptop) /\
  (os_path_basename "/home/user/pretraining-llms" =? "LangChain") = false /\
  setup_environment "LangChain" "Colab Notebooks" false true laptop
  = (Raise AssertionError, mk_machine (world laptop) (stdout laptop)).
Proof.
  split; [reflexivity | split; [reflexivity|]].
  apply (local_run_wrong_folder "LangChain" "Colab Notebooks" true laptop
           "/home/user/pretraining-llms" (world laptop)); reflexivity.
Defined.

Lemma gpu_probe_keeps_result_witness :
  setup_environment "pretraining-llms" "Colab Notebooks" false false laptop
  = (Ok ("/home/user/pretraining-llms", false),
     mk_machine (world laptop)
       [ "Running code in path /home/user/pretraining-llms";
         "******use_gpu is set to False. Using CPU******" ]) /\
  exists pre,
    [ "Running code in path /home/user/pretraining-llms";
      "******use_gpu is set to False. Using CPU******" ]
    = (pre ++ ["******use_gpu is set to False. Using CPU******"])%list.
Proof.
  assert (Hcpu :
    setup_environment "pretraining-llms" "Colab Notebooks" false false laptop
    = (Ok ("/home/user/pretraining-llms", false),
       mk_machine (world laptop)
         [ "Running code in path /home/user/pretraining-llms";
           "******use_gpu is set to False. Using CPU******" ]))
    by reflexivity.
  split; [exact Hcpu|].
  destruct (gpu_probe_keeps_result _ _ _ _ _ _ Hcpu) as (pre & Hpre & _).
  exists pre. exact Hpre.
Defined.

Lemma remote_run_returns_witness :
  setup_environment "pretraining-llms" "Colab Notebooks" true true colab
  = (Ok ("/content/drive/MyDrive/Colab Notebooks/pretraining-llms", true),
     mk_machine
       (mk_posix "/content/drive/MyDrive/Colab Notebooks/pretraining-llms"
          [ "/content/drive/MyDrive/Colab Notebooks/pretraining-llms";
            "/content/drive"; "/content/drive/MyDrive"; "/content" ]
          ["/content/drive"] true true (Some "Tesla T4"))
       [ "Google Drive mounted successfully!";
         "Running code in path /content/drive/MyDrive/Colab Notebooks/pretraining-llms";
         "******GPU is available and will be used:**********";
         "Tesla T4" ]).
Proof.
  pose (p := "/content/drive/MyDrive/Colab Notebooks/pretraining-llms").
  pose (w2 := snd (drive_mount "/content/drive" (world colab))).
  pose (w3 := snd (os_makedirs p w2)).
  pose (w4 := snd (os_chdir p w3)).
  assert (H1 : import_google_colab (world colab) = (Ok tt, world colab))
    by reflexivity.
  assert (H2 : drive_mount "/content/drive" (world colab) = (Ok tt, w2))
    by reflexivity.
  assert (H3 : if os_path_exists
                    (os_path_join "/content/drive/MyDrive"
                       ["Colab Notebooks"; "pretraining-llms"]) w2
               then w3 = w2
               else os_makedirs
                      (os_path_join "/content/drive/MyDrive"
                         ["Colab Notebooks"; "pretraining-llms"]) w2
                    = (Ok tt, w3))
    by reflexivity.
  assert (H4 : os_chdir
                 (os_path_join "/content/drive/MyDrive"
                    ["Colab Notebooks"; "pretraining-llms"]) w3
               = (Ok tt, w4))
    by reflexivity.
  assert (H5 : os_getcwd w4 = (Ok p, w4)) by reflexivity.
  rewrite (remote_run_returns "pretraining-llms" "Colab Notebooks" true colab
             _ _ _ _ _ _ H1 H2 H3 H4 H5 _ _ eq_refl eq_refl).
  reflexivity.
Defined.

End SetupMore.

(** ** The self-detecting bootstrap of the LangChain notebook *)

Module SetupDetectFacts.
Import Py Setup SetupParts SetupFacts.
Local Open Scope stmt_scope.
Local Open Scope string_scope.

Section OnAnyPlatform.
Context {W : Type} `{Platform W}.

(** How the [try] around the Colab import ends. *)
Lemma detect_inv (st st1 : machine W) (run_local : bool) :
  try_except (sys import_google_colab ;; ret false) ImportError (ret true) st
  = (Ok run_local, st1) ->
  exists w1,
    st1 = mk_machine w1 (stdout st) /\
    import_google_colab (world st)
    = (if run_local then Raise ImportError else Ok tt, w1).
Proof.
  unfold try_except, bind, sys, ret.
  destruct (import_google_colab (world st)) as [[[] | e] w1]; cbn.
  - intros E. inversion E. now exists w1.
  - destruct (exn_eq_dec e ImportError) as [-> | Hne]; intros E;
      [|discriminate E].
    inversion E. now exists w1.
Qed.

(** X10.  The bootstrap of the LangChain notebook never returns
    [run_local = True] together with [mount_success = True].  It returns
    [run_local = True] exactly when the Colab import raised [ImportError],
    and then the path is the working directory; it returns
    [run_local = False] when the import went through, and then
    [mount_success] is what [os.path.ismount] answers after [drive.mount].
    So the unmount cell's test [not run_local and mount_success] is
    [mount_success] alone. *)
Theorem detected_flags
    (folder : option string) (use_gpu : bool) (st st' : machine W)
    (run_local : bool) (path : string) (mount_success : bool) :
  SetupDetect.setup_environment folder use_gpu st
  = (Ok (run_local, path, mount_success), st') ->
  (if run_local then
     mount_success = false /\
     exists w1,
       import_google_colab (world st) = (Raise ImportError, w1) /\
       fst (os_getcwd w1) = Ok path
   else
     exists w1 w2,
       import_google_colab (world st) = (Ok tt, w1) /\
       drive_mount "/content/drive" w1 = (Ok tt, w2) /\
       mount_success = os_path_ismount "/content/drive" w2) /\
  SetupDetect.unmounts run_local mount_success = mount_success.
Proof.
  unfold SetupDetect.setup_environment. intros Hrun.
  apply bind_ok_inv in Hrun. destruct Hrun as (rl & s0 & Hdet & Hrun).
  apply detect_inv in Hdet. destruct Hdet as (w1 & -> & Himp).
  apply bind_ok_inv in Hrun. destruct Hrun as (? & s1 & Hpr & Hrun).
  assert (Hw1 : world s1 = w1).
  { destruct rl; cbn [negb] in Hpr; apply print_ok_inv in Hpr;
      now destruct Hpr. }
  clear Hpr. destruct rl; cbn [negb] in Hrun.
  - apply bind_ok_inv in Hrun. destruct Hrun as (p & sa & Hcwd & Hrun).
    apply bind_ok_inv in Hrun. destruct Hrun as (? & sb & _ & Hrun).
    apply bind_ok_inv in Hrun. destruct Hrun as (? & sc & _ & Hrun).
    apply bind_ok_inv in Hrun. destruct Hrun as (? & sd & _ & Hrun).
    apply ret_ok_inv in Hrun. destruct Hrun as [Htriple _].
    inversion Htriple; subst run_local path mount_success.
    apply sys_ok_inv in Hcwd. destruct Hcwd as [Hcwd _]. rewrite Hw1 in Hcwd.
    split; [|reflexivity]. split; [reflexivity|].
    exists w1. split; [exact Himp | now rewrite Hcwd].
  - apply bind_ok_inv in Hrun. destruct Hrun as ([] & sa & Hmnt & Hrun).
    apply bind_ok_inv in Hrun. destruct Hrun as (mounted & sb & Hask & Hrun).
    apply bind_ok_inv in Hrun. destruct Hrun as (ms & sc & Hms & Hrun).
    apply bind_ok_inv in Hrun. destruct Hrun as (? & sd & _ & Hrun).
    apply bind_ok_inv in Hrun. destruct Hrun as (? & se & _ & Hrun).
    apply bind_ok_inv in Hrun. destruct Hrun as (? & sf & _ & Hrun).
    apply bind_ok_inv in Hrun. destruct Hrun as (? & sg & _ & Hrun).
    apply bind_ok_inv in Hrun. destruct Hrun as (? & sh & _ & Hrun).
    apply ret_ok_inv in Hrun. destruct Hrun as [Htriple _].
    inversion Htriple; subst run_local path mount_success.
    apply sys_ok_inv in Hmnt. destruct Hmnt as [Hmnt _]. rewrite Hw1 in Hmnt.
    apply ask_ok_inv in Hask. destruct Hask as [-> ->].
    assert (Hm : ms = os_path_ismount "/content/drive" (world sa)).
    { destruct (os_path_ismount "/content/drive" (world sa));
        apply bind_ok_inv in Hms; destruct Hms as (? & ? & _ & Hms);
        apply ret_ok_inv in Hms; now destruct Hms. }
    split; [|reflexivity].
    exists w1, (world sa). repeat split; assumption.
Qed.


(** X12.  Off Colab, that is when the Colab import raises [ImportError],
    and with [os.getcwd] returning, the call prints [Running locally] and
    then, for either value of [use_gpu]: with a folder name that is not
    empty and is not the name of the working directory it raises
    [AssertionError], before it prints anything else and before the GPU
    probe; without a folder name ([None] or the empty string), or with the
    name of the working directory, it accepts the directory whatever it is,
    prints it and goes on to the GPU probe, after which it returns
    [(True, cwd, False)].  The one way left for it not to return then is
    [use_gpu = True] with [nvidia-smi] raising something other than
    [SubprocessError], which is passed on. *)
Theorem local_run_folder_check
    (folder : option string) (use_gpu : bool) (st : machine W)
    (w1 w2 : W) (cwd : string) :
  import_google_colab (world st) = (Raise ImportError, w1) ->
  os_getcwd w1 = (Ok cwd, w2) ->
  forall printed,
    printed = (stdout st
                 ++ [ "Running locally";
                      ("Running code in path " ++ cwd)%string ])%list ->
    SetupDetect.setup_environment folder use_gpu st
    = if match folder with
         | Some name => negb (name =? "") && negb (os_path_basename cwd =? name)
         | None => false
         end
      then (Raise AssertionError,
            mk_machine w2 (stdout st ++ ["Running locally"])%list)
      else if use_gpu then
        match check_output_decode "nvidia-smi" w2 with
        | (Ok gpu_info, w3) =>
            (Ok (true, cwd, false),
             mk_machine w3
               (printed
                  ++ [ "******GPU is available and will be used:**********";
                       gpu_info ])%list)
        | (Raise e, w3) =>
            if exn_eq_dec e SubprocessError
            then (Ok (true, cwd, false),
                  mk_machine w3
                    (printed ++ ["GPU check failed (nvidia-smi not found or no GPU available). Falling back to CPU."])%list)
            else (Raise e, mk_machine w3 printed)
        end
      else
        (Ok (true, cwd, false),
         mk_machine w2
           (printed
              ++ ["******use_gpu is set to False. Using CPU******"])%list).
Proof.
  intros Himp Hcwd printed ->.
  assert (Hprobe :
    forall pre : list string,
      (gpu_probe use_gpu ;; ret (true, cwd, false)) (mk_machine w2 pre)
      = if use_gpu then
          match check_output_decode "nvidia-smi" w2 with
          | (Ok gpu_info, w3) =>
              (Ok (true, cwd, false),
               mk_machine w3
                 (pre
                    ++ [ "******GPU is available and will be used:**********";
                         gpu_info ])%list)
          | (Raise e, w3) =>
              if exn_eq_dec e SubprocessError
              then (Ok (true, cwd, false),
                    mk_machine w3
                      (pre ++ ["GPU check failed (nvidia-smi not found or no GPU available). Falling back to CPU."])%list)
              else (Raise e, mk_machine w3 pre)
          end
        else
          (Ok (true, cwd, false),
           mk_machine w2
             (pre ++ ["******use_gpu is set to False. Using CPU******"])%list)).
  { intros pre.
    unfold gpu_probe, bind, print, ret, try_except, sys. cbn [world stdout].
    destruct use_gpu; cbn [world stdout]; [|reflexivity].
    destruct (check_output_decode "nvidia-smi" w2) as [[gpu_info | e] w3];
      cbn [world stdout].
    - now rewrite <- app_assoc.
    - destruct (exn_eq_dec e SubprocessError); reflexivity. }
  unfold SetupDetect.setup_environment.
  unfold bind at 1, try_except at 1, bind at 1, sys at 1, ret at 1.
  rewrite Himp.
  destruct (exn_eq_dec ImportError ImportError) as [_ | Hne]; [|congruence].
  unfold ret at 1. cbn [negb]. unfold bind at 1, print at 1.
  cbn [world stdout]. unfold bind at 1, sys at 1. cbn [world stdout].
  rewrite Hcwd. cbn [world stdout].
  unfold SetupDetect.truthy.
  destruct folder as [name|].
  - destruct (name =? "") eqn:Ename; cbn [negb andb].
    + unfold bind at 1, ret at 1. unfold bind at 1, print at 1.
      cbn [world stdout]. rewrite <- app_assoc. apply Hprobe.
    + destruct (os_path_basename cwd =? name); cbn [negb].
      * unfold assert_, bind at 1, ret at 1. unfold bind at 1, print at 1.
        cbn [world stdout]. rewrite <- app_assoc. apply Hprobe.
      * reflexivity.
  - unfold bind at 1, ret at 1. unfold bind at 1, print at 1.
    cbn [world stdout]. rewrite <- app_assoc. apply Hprobe.
Qed.

End OnAnyPlatform.

Lemma detected_flags_witness :
  SetupDetect.setup_environment (Some "pretraining-llms") true colab
  = (Ok (false, "/content/drive/MyDrive/Colab Notebooks/pretraining-llms",
         true),
     snd (SetupDetect.setup_environment (Some "pretraining-llms") true colab))
  /\ SetupDetect.unmounts false true = true.
Proof.
  assert (Hrun :
    SetupDetect.setup_environment (Some "pretraining-llms") true colab
    = (Ok (false, "/content/drive/MyDrive/Colab Notebooks/pretraining-llms",
           true),
       snd (SetupDetect.setup_environment (Some "pretraining-llms") true
              colab)))
    by reflexivity.
  split; [exact Hrun|].
  exact (proj2 (detected_flags _ _ _ _ _ _ _ Hrun)).
Defined.


Lemma local_run_folder_check_witness :
  import_google_colab (world laptop) = (Raise ImportError, world laptop) /\
  os_getcwd (world laptop) = (Ok "/home/user/pretraining-llms", world laptop) /\
  SetupDetect.setup_environment None true laptop
  = (Ok (true, "/home/user/pretraining-llms", false),
     mk_machine (world laptop)
       [ "Running locally";
         "Running code in path /home/user/pretraining-llms";
         "GPU check failed (nvidia-smi not found or no GPU available). Falling back to CPU." ]) /\
  SetupDetect.setup_environment (Some "LangChain") true laptop
  = (Raise AssertionError, mk_machine (world laptop) ["Running locally"]).
Proof.
  assert (Himp : import_google_colab (world laptop)
                 = (Raise ImportError, world laptop)) by reflexivity.
  assert (Hcwd : os_getcwd (world laptop)
                 = (Ok "/home/user/pretraining-llms", world laptop))
    by reflexivity.
  split; [exact Himp | split; [exact Hcwd|]].
  split.
  - rewrite (local_run_folder_check None true laptop _ _ _ Himp Hcwd
               _ eq_refl).
    reflexivity.
  - rewrite (local_run_folder_check (Some "LangChain") true laptop _ _ _
               Himp Hcwd _ eq_refl).
    reflexivity.
Defined.

End SetupDetectFacts.

(** ** Tokenizing, then packing, then training on the rows *)

Module TokenizeFacts.
Import Py Numpy Lesson3 NumpyFacts PackingFacts PackingContract PackingMore.
Import Tokenize.

Lemma wrap_int64_id (z : Z) : - 2 ^ 63 <= z < 2 ^ 63 -> wrap_int64 z = z.
Proof. intros Hz. unfold wrap_int64. rewrite Z.mod_small; lia. Qed.

Section WithTokenizer.
Context `{Tokenizer}.

Lemma tokenized_nonempty (texts : list string) :
  Forall (fun s => s <> []) (column_input_ids (dataset_map texts)).
Proof.
  unfold column_input_ids, dataset_map. rewrite map_map.
  apply Forall_map, Forall_forall. intros t _. discriminate.
Qed.

Lemma tokenized_sum (texts : list string) :
  fold_right Z.add 0 (column_num_tokens (dataset_map texts))
  = ntokens (column_input_ids (dataset_map texts)).
Proof.
  unfold ntokens, flat, column_num_tokens, column_input_ids, dataset_map.
  induction texts as [|t texts IH]; [reflexivity|].
  cbn [map fold_right concat]. rewrite IH, length_app.
  cbn [num_tokens input_ids tokenization]. lia.
Qed.

Lemma tokenized_at_least_two (texts : list string) :
  2 * Z.of_nat (length texts)
  <= ntokens (column_input_ids (dataset_map texts)).
Proof.
  unfold ntokens, flat, column_input_ids, dataset_map.
  induction texts as [|t texts IH]; [simpl; lia|].
  cbn [map concat length]. rewrite length_app.
  cbn [input_ids tokenization]. rewrite length_app. cbn [length app] in *.
  rewrite length_app. cbn [length]. lia.
Qed.

(** X13.  The two token counts the notebook prints agree.  On a data set of
    at least one record that [tokenization] was mapped over, the array of
    cell 4.1 is an [int64] array that holds at least two tokens for each
    record (its BOS and EOS), and, below [2^31] tokens, its length is the
    total [np.sum(dataset["num_tokens"])] of cell 3.4. *)
Theorem token_totals_agree (texts : list string) :
  texts <> [] ->
  exists a,
    concatenate (column_input_ids (dataset_map texts)) = Ok a /\
    nd_dtype a = Int64 /\
    2 * Z.of_nat (length texts) <= len a /\
    (len a < 2 ^ 31 ->
     np_sum (column_num_tokens (dataset_map texts)) = len a).
Proof.
  intros Hne.
  pose proof (tokenized_nonempty texts) as Hfull.
  pose proof (tokenized_sum texts) as Hsum.
  pose proof (tokenized_at_least_two texts) as Htwo.
  destruct (column_input_ids (dataset_map texts)) as [|s rest] eqn:Hcol.
  - destruct texts; [congruence | discriminate Hcol].
  - eexists. split; [reflexivity | split; [|split]].
    + cbn [nd_dtype]. now apply concat_dtype_int64.
    + exact Htwo.
    + cbn [len nd_shape hd]. intros Hlt. unfold np_sum. rewrite Hsum.
      apply wrap_int64_id. unfold ntokens, flat. lia.
Qed.

(** X14.  A tokenized data set always packs.  For a positive width [L] and
    at least one record the packer produces
    [floor(total_tokens / L)] rows, at least [floor(2 * records / L)] of
    them; each element is the low 32 bits of its token, since the array is
    never promoted to [float64]; and when the tokenizer's ids (BOS and EOS
    included) fit 32 bits the rows, read in order, are the kept tokens
    themselves. *)
Theorem tokenized_dataset_packs (L : Z) (texts : list string) :
  0 < L -> texts <> [] ->
  exists rows,
    pack L (column_input_ids (dataset_map texts)) = Ok rows /\
    Z.of_nat (length rows)
    = ntokens (column_input_ids (dataset_map texts)) / L /\
    2 * Z.of_nat (length texts) / L <= Z.of_nat (length rows) /\
    concat rows
    = map wrap_int32
        (firstn (Z.to_nat (kept L (column_input_ids (dataset_map texts))))
                (flat (column_input_ids (dataset_map texts)))) /\
    (in_int32 bos_token_id = true -> in_int32 eos_token_id = true ->
     (forall tokens,
        Forall (fun z => in_int32 z = true) (convert_tokens_to_ids tokens)) ->
     concat rows
     = firstn (Z.to_nat (kept L (column_input_ids (dataset_map texts))))
              (flat (column_input_ids (dataset_map texts)))).
Proof.
  intros HL Hne.
  pose proof (tokenized_nonempty texts) as Hfull.
  pose proof (tokenized_at_least_two texts) as Htwo.
  set (seqs := column_input_ids (dataset_map texts)) in *.
  assert (Hseqs : seqs <> []).
  { subst seqs. destruct texts; [congruence | discriminate]. }
  assert (Hd0 : 0 <= ntokens seqs / L)
    by (apply Z.div_pos; [apply ntokens_nonneg | exact HL]).
  assert (Hdata : packed_data L seqs
                  = map wrap_int32
                        (firstn (Z.to_nat (kept L seqs)) (flat seqs))).
  { unfold packed_data. now rewrite input_dtype_int64. }
  eexists. split; [now apply pack_pos_rows | split; [|split; [|split]]].
  - rewrite rows_of_length. lia.
  - rewrite rows_of_length, Z2Nat.id by exact Hd0.
    apply Z.div_le_mono; lia.
  - rewrite rows_concat by exact HL. exact Hdata.
  - intros Hbos Heos Hids.
    rewrite rows_concat, Hdata by exact HL.
    apply (map_cast_in_range Int64), Forall_firstn.
    subst seqs. unfold flat, column_input_ids, dataset_map.
    clear - Hbos Heos Hids.
    induction texts as [|t texts IH]; [constructor|].
    cbn [map concat input_ids tokenization].
    apply Forall_app. split; [|exact IH].
    repeat (apply Forall_app; split); try (repeat constructor; assumption).
    apply Hids.
Qed.

End WithTokenizer.

#[local] Existing Instance bytes_tokenizer.

Example tokenization_of_hi :
  input_ids (tokenization "hi") = [1; 104; 105; 2] /\
  num_tokens (tokenization "hi") = 4.
Proof. split; reflexivity. Qed.

Lemma token_totals_agree_witness :
  ["hi"; ""]%string <> [] /\
  exists a,
    concatenate (column_input_ids (dataset_map ["hi"; ""]%string)) = Ok a /\
    nd_dtype a = Int64 /\
    2 * Z.of_nat (length ["hi"; ""]%string) <= len a /\
    (len a < 2 ^ 31 ->
     np_sum (column_num_tokens (dataset_map ["hi"; ""]%string)) = len a).
Proof.
  split; [discriminate|].
  apply (token_totals_agree ["hi"; ""]%string). discriminate.
Defined.

Lemma tokenized_dataset_packs_witness :
  0 < 3 /\ ["hi"; ""]%string <> [] /\
  exists rows,
    pack 3 (column_input_ids (dataset_map ["hi"; ""]%string)) = Ok rows /\
    Z.of_nat (length rows)
    = ntokens (column_input_ids (dataset_map ["hi"; ""]%string)) / 3.
Proof.
  split; [lia | split; [discriminate|]].
  destruct (tokenized_dataset_packs 3 ["hi"; ""]%string
              ltac:(lia) ltac:(discriminate))
    as (rows & Hpack & Hlen & _).
  exists rows. split; assumption.
Defined.

End TokenizeFacts.

(** ** The training data set and the loss log *)

Module TrainingFacts.
Import Py Numpy Lesson3 NumpyFacts PackingFacts PackingContract PackingMore.
Import Training.

Lemma dataset_getitem_none (rows : list (list Z)) (idx : Z) :
  dataset_getitem rows idx = None
  <-> idx < - Z.of_nat (length rows) \/ Z.of_nat (length rows) <= idx.
Proof.
  unfold dataset_getitem.
  destruct (((idx <? 0) && (idx + Z.of_nat (length rows) <? 0))
            || (Z.of_nat (length rows) <=? idx)) eqn:E.
  - split; [intros _ | reflexivity].
    apply orb_true_iff in E. destruct E as [E | E].
    + apply andb_true_iff in E. destruct E as [_ E].
      apply Z.ltb_lt in E. lia.
    + apply Z.leb_le in E. lia.
  - apply orb_false_iff in E. destruct E as [E1 E2].
    apply Z.leb_gt in E2.
    assert (Hlo : - Z.of_nat (length rows) <= idx).
    { apply andb_false_iff in E1. destruct E1 as [E1 | E1].
      - apply Z.ltb_ge in E1. lia.
      - apply Z.ltb_ge in E1. lia. }
    split; [|lia]. intros Hnone. apply nth_error_None in Hnone.
    pose proof (Z.mod_pos_bound idx (Z.of_nat (length rows)) ltac:(lia)).
    lia.
Qed.

Lemma dataset_getitem_negative (rows : list (list Z)) (idx : Z) :
  - Z.of_nat (length rows) <= idx < 0 ->
  dataset_getitem rows idx
  = dataset_getitem rows (idx + Z.of_nat (length rows)).
Proof.
  intros Hidx. unfold dataset_getitem.
  set (n := Z.of_nat (length rows)) in *.
  replace ((idx <? 0) && (idx + n <? 0)) with false
    by (symmetry; apply andb_false_iff; right; apply Z.ltb_ge; lia).
  replace (n <=? idx) with false by (symmetry; apply Z.leb_gt; lia).
  replace ((idx + n <? 0) && (idx + n + n <? 0)) with false
    by (symmetry; apply andb_false_iff; left; apply Z.ltb_ge; lia).
  replace (n <=? idx + n) with false by (symmetry; apply Z.leb_gt; lia).
  cbn [orb].
  replace ((idx + n) mod n) with (idx mod n); [reflexivity|].
  rewrite <- (Z.mod_add idx 1 n) by lia. f_equal. lia.
Qed.

(** X15.  [CustomDataset.__getitem__] answers exactly the indices from
    [-len] to [len - 1]: outside them it raises [IndexError], a negative
    index counts from the end, and inside them the sample's [labels] are the
    same tensor of ids as its [input_ids], one row of the data set. *)
Theorem getitem_bounds (self : CustomDataset) (idx : Z) :
  (getitem self idx = None <-> idx < - len_ self \/ len_ self <= idx) /\
  (- len_ self <= idx < 0 -> getitem self idx = getitem self (idx + len_ self)) /\
  (forall s, getitem self idx = Some s ->
     labels s = input_ids s /\
     nth_error (dataset self) (Z.to_nat (idx mod len_ self))
     = Some (data (input_ids s)) /\
     shape (input_ids s) = [Z.of_nat (length (data (input_ids s)))]).
Proof.
  unfold getitem, len_. split; [|split].
  - rewrite <- dataset_getitem_none.
    destruct (dataset_getitem (dataset self) idx); split; congruence.
  - intros Hidx. now rewrite (dataset_getitem_negative _ _ Hidx).
  - intros s Hs.
    destruct (dataset_getitem (dataset self) idx) as [row|] eqn:Hrow;
      [|discriminate].
    inversion Hs; subst s. cbn [labels input_ids data shape LongTensor].
    split; [reflexivity | split; [|reflexivity]].
    unfold dataset_getitem in Hrow.
    destruct (_ || _); [discriminate | exact Hrow].
Qed.

(** X16.  Training samples drawn from packed rows all have the packing
    width.  If the rows of the data set are what the packer produced with
    width [L], the data set has [floor(total_tokens / L)] samples, every
    sample is a pair of equal tensors of shape [(L,)], and every row is the
    sample at its own position. *)
Theorem packed_samples (L : Z) (seqs rows : list (list Z)) :
  pack L seqs = Ok rows ->
  len_ (mk_CustomDataset rows) = count_elements seqs / L /\
  (forall idx s,
     getitem (mk_CustomDataset rows) idx = Some s ->
     shape (input_ids s) = [L] /\ labels s = input_ids s /\
     In (data (input_ids s)) rows) /\
  (forall i row,
     nth_error rows i = Some row ->
     getitem (mk_CustomDataset rows) (Z.of_nat i)
     = Some (mk_sample (LongTensor row) (LongTensor row))).
Proof.
  intros Hrows.
  destruct (pack_ok_inv L seqs rows Hrows) as (HL & Hne & Heq).
  assert (Hd0 : 0 <= ntokens seqs / L)
    by (apply Z.div_pos; [apply ntokens_nonneg | exact HL]).
  assert (Hw : Forall (fun row => Z.of_nat (length row) = L) rows)
    by (rewrite Heq; apply rows_width, HL).
  unfold len_, getitem. cbn [dataset]. split; [|split].
  - rewrite Heq, rows_of_length, count_elements_ntokens. lia.
  - intros idx s Hs.
    destruct (dataset_getitem rows idx) as [row|] eqn:Hrow; [|discriminate].
    inversion Hs; subst s. cbn [labels input_ids data shape LongTensor].
    assert (Hin : In row rows).
    { unfold dataset_getitem in Hrow.
      destruct (_ || _); [discriminate|].
      now apply nth_error_In in Hrow. }
    split; [|split; [reflexivity | exact Hin]].
    f_equal. clear Hrow Hs. revert row Hin. now apply Forall_forall.
  - intros i row Hi.
    assert (Hlt : (i < length rows)%nat)
      by (apply nth_error_Some; congruence).
    unfold dataset_getitem.
    replace ((Z.of_nat i <? 0) && _) with false
      by (symmetry; apply andb_false_iff; left; apply Z.ltb_ge; lia).
    replace (Z.of_nat (length rows) <=? Z.of_nat i) with false
      by (symmetry; apply Z.leb_gt; lia).
    cbn [orb]. rewrite Z.mod_small, Nat2Z.id by lia.
    now rewrite Hi.
Qed.

Lemma packed_samples_witness :
  pack 2 [[1; 2; 3]; [4; 5]] = Ok [[1; 2]; [3; 4]] /\
  len_ (mk_CustomDataset [[1; 2]; [3; 4]])
  = count_elements [[1; 2; 3]; [4; 5]] / 2.
Proof.
  assert (Hrows : pack 2 [[1; 2; 3]; [4; 5]] = Ok [[1; 2]; [3; 4]])
    by reflexivity.
  split; [exact Hrows|].
  exact (proj1 (packed_samples 2 _ _ Hrows)).
Defined.

(** X17.  The loss log loses nothing and invents nothing: after any run of
    [on_log] calls the callback holds the logs it held before followed by
    the logs of the calls, in the order of the calls, with the calls that
    passed [logs = None] left out. *)
Theorem logs_after_calls {Log : Type}
    (calls : list (option Log)) (self : LossLoggingCallback Log) :
  logs (fold_left on_log calls self) = logs self ++ reported calls /\
  (length (logs (fold_left on_log calls init)) <= length calls)%nat.
Proof.
  assert (Hlogs : forall cs (cb : LossLoggingCallback Log),
             logs (fold_left on_log cs cb) = logs cb ++ reported cs).
  { induction cs as [|c cs IH]; intros cb; cbn [fold_left reported flat_map].
    - now rewrite app_nil_r.
    - rewrite IH. destruct c as [l|]; cbn [on_log logs].
      + now rewrite <- app_assoc.
      + reflexivity. }
  split; [apply Hlogs|].
  rewrite Hlogs. cbn [init logs app]. clear.
  induction calls as [|c calls IH]; cbn [reported flat_map length];
    [lia|].
  rewrite length_app. fold (reported calls).
  destruct c; cbn [length]; lia.
Qed.

End TrainingFacts.

(** ** Choosing the model *)

Module ModelChoiceFacts.
Import Py Setup ModelChoice.
Local Open Scope string_scope.

Lemma replace_char_absent (old new : ascii) (s : string) :
  has_char old s = false -> replace_char old new s = s.
Proof.
  induction s as [|c s IH]; cbn; [reflexivity|].
  intros Hc. apply orb_false_iff in Hc. destruct Hc as [Hc Hs].
  now rewrite Hc, IH.
Qed.

Lemma replace_char_gone (old new : ascii) (s : string) :
  Ascii.eqb new old = false -> has_char old (replace_char old new s) = false.
Proof.
  intros Hne. induction s as [|c s IH]; cbn; [reflexivity|].
  rewrite IH, orb_false_r.
  destruct (Ascii.eqb c old) eqn:E; [exact Hne | exact E].
Qed.

(** X18.  The model identifier handed to Hugging Face has forward slashes
    only: whatever [os.path.join] returns on the platform, [upstage_path]
    holds no backslash, and it is what is loaded when
    [load_model_from_folder] is off.  On a POSIX machine, for a model name
    without backslash that does not start with a slash, it is
    [upstage/<model_name>]. *)
Theorem model_id_forward_slashes :
  (forall (W : Type) (P : Platform W) (path_to_scripts model_name : string),
     has_char backslash
       (model_path_or_name path_to_scripts model_name false) = false) /\
  (forall model_name,
     has_char backslash model_name = false ->
     starts_with_slash model_name = false ->
     upstage_path (W := posix) model_name = "upstage/" ++ model_name).
Proof.
  split.
  - intros W P path_to_scripts model_name.
    unfold model_path_or_name, upstage_path.
    now apply replace_char_gone.
  - intros model_name Hback Hslash.
    unfold upstage_path. cbn [os_path_join posix_platform].
    unfold posix_join. cbn [fold_left]. rewrite Hslash.
    cbn [String.eqb Ascii.eqb orb ends_with_slash].
    apply replace_char_absent.
    change ("upstage" ++ "/" ++ model_name) with ("upstage/" ++ model_name).
    cbn [append has_char]. exact Hback.
Qed.

Lemma model_id_forward_slashes_witness :
  has_char backslash "TinySolar-248m-4k" = false /\
  starts_with_slash "TinySolar-248m-4k" = false /\
  upstage_path (W := posix) "TinySolar-248m-4k" = "upstage/TinySolar-248m-4k".
Proof.
  split; [reflexivity | split; [reflexivity|]].
  exact (proj2 model_id_forward_slashes "TinySolar-248m-4k" eq_refl eq_refl).
Defined.

Lemma date_gt_trans (a b c : date) :
  date_gt a b = true -> date_gt b c = true -> date_gt a c = true.
Proof.
  unfold date_gt. intros Hab Hbc.
  repeat match goal with
         | H : (_ || _) = true |- _ => apply orb_true_iff in H; destruct H as [H | H]
         | H : (_ && _) = true |- _ => apply andb_true_iff in H; destruct H as [? H]
         | H : (_ <? _)%Z = true |- _ => apply Z.ltb_lt in H
         | H : (_ =? _)%Z = true |- _ => apply Z.eqb_eq in H
         end;
    repeat match goal with
           | |- (_ || _) = true => apply orb_true_iff
           | |- (_ && _) = true => apply andb_true_iff
           end;
    try (left; apply Z.ltb_lt; lia);
    right; apply andb_true_iff; (split; [apply Z.eqb_eq; lia|]);
    apply orb_true_iff;
    try (left; apply Z.ltb_lt; lia);
    right; apply andb_true_iff; (split; [apply Z.eqb_eq; lia|]);
    apply Z.ltb_lt; lia.
Qed.

(** X19.  The LangChain notebook switches models once and for good: on the
    target date 2024-06-12 itself it still calls the old snapshot, and once
    a date gets the new model every later date gets it too. *)
Theorem llm_model_switch :
  llm_model target_date = "gpt-3.5-turbo-0301" /\
  (forall d1 d2,
     date_gt d2 d1 = true ->
     llm_model d1 = "gpt-3.5-turbo" -> llm_model d2 = "gpt-3.5-turbo") /\
  (forall d,
     date_gt d target_date = true -> llm_model d = "gpt-3.5-turbo").
Proof.
  split; [reflexivity | split].
  - intros d1 d2 Hlater Hnew. unfold llm_model in *.
    destruct (date_gt d1 target_date) eqn:E1; [|discriminate Hnew].
    now rewrite (date_gt_trans d2 d1 target_date Hlater E1).
  - intros d Hd. unfold llm_model. now rewrite Hd.
Qed.

End ModelChoiceFacts.
